(** * OctoLightHA: the light controller of the OctoPrint plugin

    A shallow embedding of [octoprint_octolightHA/__init__.py] and the
    properties of its state reconciliation with the Home Assistant hub.

    The plugin object is a record of its two fields ([config], a Python
    dict, and [isLightOn]) together with the trace of everything the
    plugin did to the outside world: log lines, HTTP requests with the
    answer they got, sleeps and messages pushed to the UI clients.
    Python exceptions are results ([Raise]); [try]/[except] reifies them. *)

From Stdlib Require Import ZArith String Ascii List Bool Lia.
From stdpp Require Import base strings gmap list.

Open Scope string_scope.
Open Scope Z_scope.
Open Scope list_scope.

Set Warnings "-register-all".

(** ** Python values *)

(** The objects [response.json()] can return.  A dict decoded from JSON has
    string keys; it is kept as an association list in which the first
    binding of a key is the one the dict holds. *)
Inductive PyVal : Type :=
| PyNone
| PyBool (b : bool)
| PyInt (z : Z)
| PyFloat (mantissa exponent : Z)
| PyStr (s : string)
| PyList (l : list PyVal)
| PyDict (d : list (string * PyVal)).

(** The values a setting read by [reload_settings] can have: the three
    string settings come from [_settings.get], the flag from
    [_settings.get_boolean]; both give [None] for a value that is not set. *)
Inductive CfgVal : Type :=
| CfgStr (s : string)
| CfgBool (b : bool)
| CfgNone.

Inductive PyExn : Type :=
| IndexError
| KeyError
| TypeError
| AttributeError
| JSONDecodeError
| InvalidURL
| ConnectionError
| OtherException (name : string).

Inductive Res (A : Type) : Type :=
| Ok (a : A)
| Raise (e : PyExn).
Arguments Ok {A} a.
Arguments Raise {A} e.

Definition res_bind {A B} (r : Res A) (k : A -> Res B) : Res B :=
  match r with
  | Ok a => k a
  | Raise e => Raise e
  end.

(** Truth value of a setting ([bool(v)]). *)
Definition truthy (v : CfgVal) : bool :=
  match v with
  | CfgStr s => negb (String.eqb s EmptyString)
  | CfgBool b => b
  | CfgNone => false
  end.

(** Truth value of the cached light state ([True], [False] or [None]). *)
Definition state_truthy (st : option bool) : bool :=
  match st with
  | Some b => b
  | None => false
  end.

(** [==] on light states: [None] equals only [None]. *)
Definition state_eqb (a b : option bool) : bool :=
  match a, b with
  | Some x, Some y => Bool.eqb x y
  | None, None => true
  | _, _ => false
  end.

Definition state_to_py (st : option bool) : PyVal :=
  match st with
  | Some b => PyBool b
  | None => PyNone
  end.

(** [str(v)] as the f-strings of the URLs and of the header apply it. *)
Definition py_str (v : CfgVal) : string :=
  match v with
  | CfgStr s => s
  | CfgBool true => "True"
  | CfgBool false => "False"
  | CfgNone => "None"
  end.

(** [s.split(sep)] for a one-character separator: never an empty list. *)
Fixpoint split_char (sep : ascii) (s : string) : list string :=
  match s with
  | EmptyString => [EmptyString]
  | String c rest =>
      if Ascii.eqb c sep then EmptyString :: split_char sep rest
      else match split_char sep rest with
           | h :: t => String c h :: t
           | [] => [String c EmptyString]
           end
  end.

(** [v.split('.')]: only [str] has the method. *)
Definition py_split_dot (v : CfgVal) : Res (list string) :=
  match v with
  | CfgStr s => Ok (split_char "."%char s)
  | _ => Raise AttributeError
  end.

(** Index into a Python sequence, negative indices counting from the end. *)
Definition seq_index {A} (l : list A) (i : Z) : Res A :=
  let n := Z.of_nat (length l) in
  let j := if i <? 0 then i + n else i in
  if (0 <=? j) && (j <? n)
  then match nth_error l (Z.to_nat j) with
       | Some x => Ok x
       | None => Raise IndexError
       end
  else Raise IndexError.

Inductive Subscript : Type :=
| SubInt (i : Z)
| SubStr (k : string).

Fixpoint dict_get (d : list (string * PyVal)) (k : string) : option PyVal :=
  match d with
  | [] => None
  | (k', v) :: rest => if String.eqb k' k then Some v else dict_get rest k
  end.

(** [v[k]] on a decoded JSON value. *)
Definition py_getitem (v : PyVal) (k : Subscript) : Res PyVal :=
  match v, k with
  | PyList l, SubInt i => seq_index l i
  | PyList _, SubStr _ => Raise TypeError
  | PyStr s, SubInt i =>
      res_bind (seq_index (list_ascii_of_string s) i)
               (fun c => Ok (PyStr (String c EmptyString)))
  | PyStr _, SubStr _ => Raise TypeError
  | PyDict d, SubStr key =>
      match dict_get d key with
      | Some x => Ok x
      | None => Raise KeyError
      end
  | PyDict _, SubInt _ => Raise KeyError
  | _, _ => Raise TypeError
  end.

(** ** Source: module level *)

Definition CONFIG_ADDRESS : string := "address".
Definition CONFIG_API_KEY : string := "api_key".
Definition CONFIG_ENTITY_ID : string := "entity_id".
Definition CONFIG_VERIFY_CERTIFICATE : string := "verify_certificate".

(** [status == 'on']: only the string ['on'] compares equal to it. *)
Definition _parse_status (status : PyVal) : bool :=
  match status with
  | PyStr s => if String.eqb s "on" then true else false
  | _ => false
  end.

(** ** The outside world *)

Inductive Method : Type := GET | POST.

Record Request : Type := mkRequest {
  method : Method;
  url : string;
  headers : list (string * string);
  json : option PyVal;
  verify : CfgVal
}.

(** What [requests.get]/[requests.post] does: raise, or return a response
    whose body [response.json()] decodes ([None]: it is not JSON). *)
Inductive Outcome : Type :=
| NetRaise (e : PyExn)
| NetResponse (body : option PyVal).

Inductive Level : Type := DEBUG | INFO | WARNING | ERROR | EXCEPTION.

Inductive LogArg : Type :=
| AVal (v : PyVal)
| AErr (e : PyExn).

(** A log line is its level, the text of the source's format string and the
    values interpolated into it. *)
Inductive Event : Type :=
| EvLog (lvl : Level) (msg : string) (args : list LogArg)
| EvHttp (req : Request) (out : Outcome)
| EvSleep (secs : Z)
| EvPluginMessage (payload : PyVal).

Definition is_log (ev : Event) : bool :=
  match ev with
  | EvLog _ _ _ => true
  | _ => false
  end.

(** What a trace holds apart from the log lines. *)
Fixpoint effects (tr : list Event) : list Event :=
  match tr with
  | [] => []
  | ev :: rest => if is_log ev then effects rest else ev :: effects rest
  end.

(** The hub: its answer to a request may depend on everything the plugin did
    before, in particular on the earlier requests and on the time slept, but
    not on what the plugin wrote to its log. *)
Definition Hub : Type := list Event -> Request -> Outcome.

Record State : Type := mkState {
  config : gmap string CfgVal;
  isLightOn : option bool;
  trace : list Event
}.

Definition emit (evs : list Event) (w : State) : State :=
  mkState (config w) (isLightOn w) (trace w ++ evs).

(** ** The monad of the plugin's methods *)

Definition M (A : Type) : Type := Hub -> State -> Res A * State.

Definition ret {A} (a : A) : M A := fun _ w => (Ok a, w).

Definition bind {A B} (m : M A) (k : A -> M B) : M B :=
  fun hub w =>
    match m hub w with
    | (Ok a, w') => k a hub w'
    | (Raise e, w') => (Raise e, w')
    end.

Definition lift {A} (r : Res A) : M A := fun _ w => (r, w).

(** [try: m], the exception handed to the [except] clauses as a value. *)
Definition try_ {A} (m : M A) : M (Res A) :=
  fun hub w => let (r, w') := m hub w in (Ok r, w').

Declare Scope prog_scope.
Delimit Scope prog_scope with prog.
Notation "'let*' x ':=' c1 'in' c2" :=
  (bind c1 (fun x => c2))
  (at level 10, x pattern, c1 at level 100, c2 at level 200) : prog_scope.
Notation "'exec' c1 'in' c2" :=
  (bind c1 (fun _ => c2))
  (at level 10, c1 at level 100, c2 at level 200) : prog_scope.
Open Scope prog_scope.

Definition log (lvl : Level) (msg : string) (args : list LogArg) : M unit :=
  fun _ w => (Ok tt, emit [EvLog lvl msg args] w).

Definition get_config : M (gmap string CfgVal) := fun _ w => (Ok (config w), w).

Definition get_isLightOn : M (option bool) := fun _ w => (Ok (isLightOn w), w).

Definition set_isLightOn (st : option bool) : M unit :=
  fun _ w => (Ok tt, mkState (config w) st (trace w)).

(** [d[k]] on the config dict. *)
Definition cfg_getitem (cfg : gmap string CfgVal) (k : string) : Res CfgVal :=
  match cfg !! k with
  | Some v => Ok v
  | None => Raise KeyError
  end.

Definition config_getitem (k : string) : M CfgVal :=
  let* cfg := get_config in lift (cfg_getitem cfg k).

Definition request (req : Request) : M (option PyVal) :=
  fun hub w =>
    let out := hub (effects (trace w)) req in
    (match out with
     | NetRaise e => Raise e
     | NetResponse body => Ok body
     end, emit [EvHttp req out] w).

Definition requests_get (url : string) (headers : list (string * string))
    (verify : CfgVal) : M (option PyVal) :=
  request (mkRequest GET url headers None verify).

Definition requests_post (url : string) (headers : list (string * string))
    (json : PyVal) (verify : CfgVal) : M (option PyVal) :=
  request (mkRequest POST url headers (Some json) verify).

Definition response_json (body : option PyVal) : Res PyVal :=
  match body with
  | Some j => Ok j
  | None => Raise JSONDecodeError
  end.

Definition time_sleep (secs : Z) : M unit :=
  fun _ w => (Ok tt, emit [EvSleep secs] w).

Definition send_plugin_message (payload : PyVal) : M unit :=
  fun _ w => (Ok tt, emit [EvPluginMessage payload] w).

(** ** Source: class [OctoLightHAPlugin] *)

(** [is_config_completed]: [a and b and c] evaluates left to right and stops
    at the first falsy operand; a missing key raises inside the [try]. *)
Definition is_config_completed (cfg : gmap string CfgVal) : bool :=
  match
    res_bind (cfg_getitem cfg CONFIG_ADDRESS) (fun a =>
      if truthy a then
        res_bind (cfg_getitem cfg CONFIG_ENTITY_ID) (fun e =>
          if truthy e then cfg_getitem cfg CONFIG_API_KEY else Ok e)
      else Ok a)
  with
  | Ok v => truthy v
  | Raise _ => false
  end.

(** The classes of [except (InvalidURL, ConnectionError)]. *)
Definition is_unreachable (e : PyExn) : bool :=
  match e with
  | InvalidURL | ConnectionError => true
  | _ => false
  end.

(** The classes of [except (IndexError, KeyError)]. *)
Definition is_index_or_key (e : PyExn) : bool :=
  match e with
  | IndexError | KeyError => true
  | _ => false
  end.

Definition log_request_failure (e : PyExn) : M unit :=
  if is_unreachable e
  then log ERROR
         "unable to communicate with server, please check settings, error: {err}"
         [AErr e]
  else log EXCEPTION "exception while making API call: {err}" [AErr e].

Definition authorization (key : CfgVal) : list (string * string) :=
  [("Authorization", "Bearer " +:+ py_str key)].

(** [response.json()['state']], the expression parsed by [is_HA_state_on]. *)
Definition queried_status (response : option PyVal) : Res PyVal :=
  res_bind (response_json response) (fun j => py_getitem j (SubStr "state")).

(** [response.json()[0]['state']], the expression parsed by
    [toggle_HA_state]. *)
Definition toggled_status (response : option PyVal) : Res PyVal :=
  res_bind (response_json response) (fun j =>
  res_bind (py_getitem j (SubInt 0)) (fun first =>
  py_getitem first (SubStr "state"))).

Definition is_HA_state_on : M (option bool) :=
  exec log DEBUG "getting current status of light" [] in
  let* cfg := get_config in
  if negb (is_config_completed cfg) then
    exec log WARNING
      "configuration is not complete, light controls are disabled" [] in
    ret (Some false)
  else
    let* address := config_getitem CONFIG_ADDRESS in
    let* entity := config_getitem CONFIG_ENTITY_ID in
    let url := py_str address +:+ "/api/states/" +:+ py_str entity in
    let* key := config_getitem CONFIG_API_KEY in
    let headers := authorization key in
    let* verify := config_getitem CONFIG_VERIFY_CERTIFICATE in
    let* r := try_ (requests_get url headers verify) in
    let* (status, result) :=
      match r with
      | Raise err =>
          exec log_request_failure err in ret (PyNone, None)
      | Ok response =>
          let* s := try_ (lift (queried_status response)) in
          match s with
          | Raise err =>
              exec log EXCEPTION "exception while parsing API result: {err}"
                     [AErr err] in
              ret (PyNone, None)
          | Ok status => ret (status, Some (_parse_status status))
          end
      end in
    exec log DEBUG "the light is currently {status}" [AVal status] in
    ret result.

Definition toggle_HA_state : M (option bool) :=
  exec log DEBUG "toggling light" [] in
  let* old_isLightOn := get_isLightOn in
  let* cfg := get_config in
  if negb (is_config_completed cfg) then
    exec log WARNING
      "configuration is not complete, light controls are disabled" [] in
    ret None
  else
    let* _entity_id := config_getitem CONFIG_ENTITY_ID in
    let* parts := lift (py_split_dot _entity_id) in
    let* _entity_domain := lift (seq_index parts 0) in
    let* address := config_getitem CONFIG_ADDRESS in
    let url := py_str address +:+ "/api/services/" +:+ _entity_domain
               +:+ "/toggle" in
    let* key := config_getitem CONFIG_API_KEY in
    let headers := authorization key in
    let data := PyDict [("entity_id", PyStr (py_str _entity_id))] in
    let* verify := config_getitem CONFIG_VERIFY_CERTIFICATE in
    let* r := try_ (requests_post url headers data verify) in
    let* result :=
      match r with
      | Raise err => exec log_request_failure err in ret None
      | Ok response =>
          let* s := try_ (lift (toggled_status response)) in
          match s with
          | Raise err =>
              if is_index_or_key err then
                exec log DEBUG "new status not reported, sleeping..." [] in
                exec time_sleep 1 in
                is_HA_state_on
              else
                exec log EXCEPTION "exception while parsing API result: {err}"
                       [AErr err] in
                ret None
          | Ok status => ret (Some (_parse_status status))
          end
      end in
    exec (if negb (state_eqb result old_isLightOn)
          then log INFO "light switched {}"
                 [AVal (PyStr (if state_truthy result then "ON" else "OFF"))]
          else log WARNING "cannot toggle light" []) in
    ret result.

Definition plugin_message (st : option bool) : PyVal :=
  PyDict [("isLightOn", state_to_py st)].

Definition toggle_light : M unit :=
  let* result := toggle_HA_state in
  exec set_isLightOn result in
  let* st := get_isLightOn in
  send_plugin_message (plugin_message st).

Definition refresh_light_status : M unit :=
  let* result := is_HA_state_on in
  exec set_isLightOn result in
  let* st := get_isLightOn in
  send_plugin_message (plugin_message st).

(** [request.args.get(key, default=..., type=str)]: the first value of the
    parameter, the default when the parameter is absent. *)
Fixpoint args_get (args : list (string * string)) (key default : string)
    : string :=
  match args with
  | [] => default
  | (k, v) :: rest => if String.eqb k key then v else args_get rest key default
  end.

(** [flask.jsonify(state=...)] and [flask.jsonify(error=...)]. *)
Definition jsonify_state (st : option bool) : PyVal :=
  PyDict [("state", state_to_py st)].

Definition jsonify_error (msg : string) : PyVal :=
  PyDict [("error", PyStr msg)].

Definition log_if_changed (old_isLightOn : option bool) (msg : string)
    : M unit :=
  let* cur := get_isLightOn in
  if negb (state_eqb old_isLightOn cur) then log DEBUG msg [] else ret tt.

Definition respond_state : M PyVal :=
  let* cur := get_isLightOn in ret (jsonify_state cur).

Definition on_api_get (args : list (string * string)) : M PyVal :=
  let* shown := get_isLightOn in
  exec log DEBUG "API REQUEST isLightOn: {self.isLightOn}"
         [AVal (state_to_py shown)] in
  let action := args_get args "action" "toggle" in
  exec log DEBUG "running API action {action}" [AVal (PyStr action)] in
  let* old_isLightOn := get_isLightOn in
  if String.eqb action "toggle" then
    exec toggle_light in
    exec log_if_changed old_isLightOn "TOGGLE: light state changed" in
    respond_state
  else if String.eqb action "getState" then
    exec refresh_light_status in
    exec log_if_changed old_isLightOn "GETSTATE: light state changed." in
    respond_state
  else if String.eqb action "turnOn" then
    let* cur := get_isLightOn in
    exec (if negb (state_truthy cur) then toggle_light else ret tt) in
    exec log_if_changed old_isLightOn "TURNON: light state changed." in
    respond_state
  else if String.eqb action "turnOff" then
    let* cur := get_isLightOn in
    exec (if state_truthy cur then toggle_light else ret tt) in
    exec log_if_changed old_isLightOn "TURNOFF: light state changed." in
    respond_state
  else
    ret (jsonify_error "action not recognized").

(** [__init__] and [on_after_startup]. *)
Definition init_state : State := mkState ∅ (Some false) [].

Definition on_after_startup : M unit :=
  exec log INFO "OctoLightHA started, listening for GET requests" [] in
  refresh_light_status.

(** ** Observations on a run *)

(** The events a method added to the trace. *)
Definition new_events (w w' : State) : list Event :=
  drop (length (trace w)) (trace w').

Definition events_of {A} (m : M A) (hub : Hub) (w : State) : list Event :=
  new_events w (snd (m hub w)).

Definition result_of {A} (m : M A) (hub : Hub) (w : State) : Res A :=
  fst (m hub w).

(** The network calls of a trace, in order, with their outcomes. *)
Fixpoint http_log (tr : list Event) : list (Request * Outcome) :=
  match tr with
  | [] => []
  | EvHttp req out :: rest => (req, out) :: http_log rest
  | _ :: rest => http_log rest
  end.

(** The suspensions of a trace, in order. *)
Fixpoint sleeps (tr : list Event) : list Z :=
  match tr with
  | [] => []
  | EvSleep secs :: rest => secs :: sleeps rest
  | _ :: rest => sleeps rest
  end.

(** ** Settings, requests and the values read from the answers *)

(** A setting that is missing from the dict or falsy (the empty string,
    [None], [False]). *)
Definition unset (cfg : gmap string CfgVal) (k : string) : Prop :=
  match cfg !! k with
  | Some v => truthy v = false
  | None => True
  end.

(** A query that gave no state: the request raised, or the body has no
    readable [state]. *)
Definition query_failed (out : Outcome) : Prop :=
  match out with
  | NetRaise _ => True
  | NetResponse body =>
      match queried_status body with
      | Ok _ => False
      | Raise _ => True
      end
  end.

(** The value [is_HA_state_on] computes from the answer to its request. *)
Definition query_result (out : Outcome) : option bool :=
  match out with
  | NetRaise _ => None
  | NetResponse body =>
      match queried_status body with
      | Ok status => Some (_parse_status status)
      | Raise _ => None
      end
  end.

(** The request [is_HA_state_on] builds from the four settings. *)
Definition states_request (a e k v : CfgVal) : Request :=
  mkRequest GET (py_str a +:+ "/api/states/" +:+ py_str e)
            (authorization k) None v.

(** The request [toggle_HA_state] builds for the entity [entity] of domain
    [domain]. *)
Definition toggle_request (a : CfgVal) (entity domain : string)
    (k v : CfgVal) : Request :=
  mkRequest POST (py_str a +:+ "/api/services/" +:+ domain +:+ "/toggle")
            (authorization k)
            (Some (PyDict [("entity_id", PyStr entity)])) v.

(** The substring of [s] before the first [sep] (all of [s] without one). *)
Fixpoint before_first (sep : ascii) (s : string) : string :=
  match s with
  | EmptyString => EmptyString
  | String c rest =>
      if Ascii.eqb c sep then EmptyString
      else String c (before_first sep rest)
  end.

(** The last log line of [toggle_HA_state]. *)
Definition toggle_verdict (result old : option bool) : Event :=
  if negb (state_eqb result old)
  then EvLog INFO "light switched {}"
         [AVal (PyStr (if state_truthy result then "ON" else "OFF"))]
  else EvLog WARNING "cannot toggle light" [].

(** Does the answer to the toggle lack the new state
    ([except (IndexError, KeyError)])? *)
Definition state_not_reported (out : Outcome) : bool :=
  match out with
  | NetRaise _ => false
  | NetResponse body =>
      match toggled_status body with
      | Ok _ => false
      | Raise e => is_index_or_key e
      end
  end.

(** The value [toggle_HA_state] computes from an answer it does not retry. *)
Definition toggled_result (out : Outcome) : option bool :=
  match out with
  | NetRaise _ => None
  | NetResponse body =>
      match toggled_status body with
      | Ok status => Some (_parse_status status)
      | Raise _ => None
      end
  end.

(** The value computed from the answer to a request: the GET of the state
    query, or a POST of the toggle that is not followed by a query. *)
Definition answer_result (req : Request) (out : Outcome) : option bool :=
  match method req with
  | GET => query_result out
  | POST => toggled_result out
  end.

(** ** Runs that differ in their log lines *)

(** Two states the hub and the plugin cannot tell apart: they differ in the
    log lines of their traces only. *)
Definition same_view (w w' : State) : Prop :=
  config w = config w' /\ isLightOn w = isLightOn w' /\
  effects (trace w) = effects (trace w').

(** Two methods that differ in their log lines only: run from states the
    hub cannot tell apart they return the same result, leave the same
    cached state, touch no setting and add the same effects to the trace. *)
Definition log_equiv {A} (m m' : M A) : Prop :=
  forall hub w w', same_view w w' ->
    exists r st evs evs',
      m hub w = (r, mkState (config w) st (trace w ++ evs)) /\
      m' hub w' = (r, mkState (config w') st (trace w' ++ evs')) /\
      effects evs = effects evs'.

(** What a caller can observe of a run: the result, the cached state and
    the settings it leaves, and the effects it added. *)
Definition observe {A} (m : M A) (hub : Hub) (w : State)
    : Res A * option bool * gmap string CfgVal * list Event :=
  (result_of m hub w, isLightOn (snd (m hub w)), config (snd (m hub w)),
   effects (events_of m hub w)).

(** ** The HTTP surface *)

(** The HTTP actions of the handler. *)
Definition toggle_action : M PyVal := on_api_get [("action", "toggle")].

Definition get_state_action : M PyVal := on_api_get [("action", "getState")].

(** [setState(desired)]: the [turnOn] and [turnOff] actions. *)
Definition setState (desired : bool) : M PyVal :=
  on_api_get [("action", if desired then "turnOn" else "turnOff")].

(** [setState] as the specification words it: nothing happens when the cached
    state equals [desired], the toggle happens otherwise. *)
Definition setState_spec (desired : bool) (hub : Hub) (w : State)
    : Res PyVal * option bool * gmap string CfgVal * list Event :=
  if state_eqb (isLightOn w) (Some desired)
  then (Ok (jsonify_state (isLightOn w)), isLightOn w, config w, [])
  else observe toggle_action hub w.

(** [setState] as the handler decides it: by the truth value of the cached
    state, so that an unknown state counts as off. *)
Definition setState_by_truth (desired : bool) (hub : Hub) (w : State)
    : Res PyVal * option bool * gmap string CfgVal * list Event :=
  if Bool.eqb (state_truthy (isLightOn w)) desired
  then (Ok (jsonify_state (isLightOn w)), isLightOn w, config w, [])
  else observe toggle_action hub w.

(** The handler from its two debug lines on, for an action that toggles. *)
Definition toggle_tail (old : option bool) (msg : string) : M PyVal :=
  exec toggle_light in
  exec log_if_changed old msg in
  respond_state.

(** ** Scenarios *)

(** A complete configuration for the entity [light.kitchen]. *)
Definition kitchen_config : gmap string CfgVal :=
  <[CONFIG_ADDRESS := CfgStr "http://hub.local"]>
  (<[CONFIG_API_KEY := CfgStr "secret"]>
  (<[CONFIG_ENTITY_ID := CfgStr "light.kitchen"]>
  (<[CONFIG_VERIFY_CERTIFICATE := CfgBool false]> ∅))).

(** A hub that cannot be reached. *)
Definition hub_down : Hub := fun _ _ => NetRaise ConnectionError.

(** A hub that answers the toggle with an empty array and reports the state
    only when queried. *)
Definition hub_slow (reported : string) : Hub := fun _ req =>
  match method req with
  | POST => NetResponse (Some (PyList []))
  | GET => NetResponse (Some (PyDict [("state", PyStr reported)]))
  end.

(** A hub that answers the toggle with the new state. *)
Definition hub_prompt (reported : string) : Hub := fun _ req =>
  match method req with
  | POST => NetResponse (Some (PyList [PyDict [("state", PyStr reported)]]))
  | GET => NetResponse (Some (PyDict [("state", PyStr reported)]))
  end.

(** ** Source: the settings *)

(** The settings store of the host as the plugin reads it:
    [_settings.get([k])] and [_settings.get_boolean([k])]. *)
Record Settings : Type := mkSettings {
  settings_get : string -> CfgVal;
  settings_get_boolean : string -> CfgVal
}.

(** [get_settings_defaults], in the order of the dict. *)
Definition get_settings_defaults : list (string * CfgVal) :=
  [(CONFIG_ADDRESS, CfgStr EmptyString);
   (CONFIG_API_KEY, CfgStr EmptyString);
   (CONFIG_ENTITY_ID, CfgStr EmptyString);
   (CONFIG_VERIFY_CERTIFICATE, CfgBool false)].

Definition cfg_to_py (v : CfgVal) : PyVal :=
  match v with
  | CfgStr s => PyStr s
  | CfgBool b => PyBool b
  | CfgNone => PyNone
  end.

(** [self.config[k] = v]. *)
Definition config_setitem (k : string) (v : CfgVal) : M unit :=
  fun _ w => (Ok tt, mkState (<[k := v]> (config w)) (isLightOn w) (trace w)).

(** The body of the loop of [reload_settings]: the accessor is chosen by the
    type of the default (no default is an [int] or a [float]). *)
Definition reload_setting (store : Settings) (kv : string * CfgVal) : M unit :=
  let k := fst kv in
  let v := match snd kv with
           | CfgStr _ => settings_get store k
           | CfgBool _ => settings_get_boolean store k
           | CfgNone => CfgNone
           end in
  exec config_setitem k v in
  log DEBUG "{k}: {v}" [AVal (PyStr k); AVal (cfg_to_py v)].

Fixpoint for_each {A} (body : A -> M unit) (l : list A) : M unit :=
  match l with
  | [] => ret tt
  | x :: rest => exec body x in for_each body rest
  end.

Definition reload_settings (store : Settings) : M unit :=
  for_each (reload_setting store) get_settings_defaults.

Definition on_settings_initialized (store : Settings) : M unit :=
  reload_settings store.

(** The settings a store holds for the plugin, as [reload_settings] reads
    them. *)
Definition loaded_config (store : Settings) : gmap string CfgVal :=
  <[CONFIG_VERIFY_CERTIFICATE := settings_get_boolean store
                                   CONFIG_VERIFY_CERTIFICATE]>
  (<[CONFIG_ENTITY_ID := settings_get store CONFIG_ENTITY_ID]>
  (<[CONFIG_API_KEY := settings_get store CONFIG_API_KEY]>
  (<[CONFIG_ADDRESS := settings_get store CONFIG_ADDRESS]> ∅))).

(** The methods of the network calls of a trace, in order. *)
Definition methods_of (evs : list Event) : list Method :=
  map (fun call => method (fst call)) (http_log evs).

(** A step of network activity: a call, of which the method is kept, or a
    sleep. *)
Inductive NetStep : Type :=
| Call (m : Method)
| Pause (secs : Z).

(** The network activity of a trace, in the order in which it happened. *)
Fixpoint net_steps (tr : list Event) : list NetStep :=
  match tr with
  | [] => []
  | EvHttp req _ :: rest => Call (method req) :: net_steps rest
  | EvSleep secs :: rest => Pause secs :: net_steps rest
  | _ :: rest => net_steps rest
  end.

(** The network activity a single operation can have: no call, the GET of a
    state query, the POST of a toggle, or the POST, then one sleep of 1
    second, then the GET of the query that follows it. *)
Definition call_profile (evs : list Event) : Prop :=
  net_steps evs = [] \/
  net_steps evs = [Call GET] \/
  net_steps evs = [Call POST] \/
  net_steps evs = [Call POST; Pause 1; Call GET].

(** The network activity of a state query. *)
Definition query_profile (evs : list Event) : Prop :=
  sleeps evs = [] /\ (methods_of evs = [] \/ methods_of evs = [GET]).

(** The handler from its two debug lines on, for [getState]. *)
Definition refresh_tail (old : option bool) (msg : string) : M PyVal :=
  exec refresh_light_status in
  exec log_if_changed old msg in
  respond_state.

(** The debug line of the handler when the cached state changed. *)
Definition changed_log (old st : option bool) (msg : string) : list Event :=
  if negb (state_eqb old st) then [EvLog DEBUG msg []] else [].

(** The payloads pushed to the UI clients in a trace, in order. *)
Fixpoint pushes (tr : list Event) : list PyVal :=
  match tr with
  | [] => []
  | EvPluginMessage payload :: rest => payload :: pushes rest
  | _ :: rest => pushes rest
  end.

(** What a run of the handler that started with the cached state [old]
    amounts to: [r] is its result, [st] the cached state it leaves and
    [evs] the events it added. *)
Definition handler_outcome (old : option bool) (r : Res PyVal)
    (st : option bool) (evs : list Event) : Prop :=
  call_profile evs /\
  (pushes evs = [] \/ pushes evs = [plugin_message st]) /\
  match r with
  | Ok body =>
      body = jsonify_state st \/
      (body = jsonify_error "action not recognized" /\ st = old /\
       effects evs = [])
  | Raise _ => st = old /\ pushes evs = []
  end.

(** [on_event]: [client_opened] is the host's [Events.CLIENT_OPENED]; the
    payload is not read. *)
Definition on_event (client_opened event : string) : M unit :=
  if String.eqb event client_opened then refresh_light_status else ret tt.

(** ** Source: saving the settings *)

Definition newline : ascii := "010"%char.

Definition slash : ascii := "/"%char.

(** Where [$] matches: at the end of the string, or just before a newline
    that ends it. *)
Definition at_dollar (s : string) : bool :=
  match s with
  | EmptyString => true
  | String c EmptyString => Ascii.eqb c newline
  | _ => false
  end.

(** The rest of [s] after the slashes it starts with. *)
Fixpoint skip_slashes (s : string) : string :=
  match s with
  | EmptyString => EmptyString
  | String c rest => if Ascii.eqb c slash then skip_slashes rest else s
  end.

(** [re.sub(r'/*$', '', s)]: scanning from the left, a run of slashes is
    matched when [$] matches after it and is then deleted; the empty matches
    are replaced by nothing. *)
Fixpoint sub_trailing_slashes (s : string) : string :=
  match s with
  | EmptyString => EmptyString
  | String c rest =>
      if Ascii.eqb c slash && at_dollar (skip_slashes rest)
      then skip_slashes rest
      else String c (sub_trailing_slashes rest)
  end.

(** [re.sub] on a setting: only a string is accepted. *)
Definition re_sub_trailing_slashes (v : CfgVal) : Res CfgVal :=
  match v with
  | CfgStr s => Ok (CfgStr (sub_trailing_slashes s))
  | _ => Raise TypeError
  end.

(** [on_settings_save(data)].  [framework_save] is the host's
    [SettingsPlugin.on_settings_save], which stores [data]; the assignment to
    [data[CONFIG_ADDRESS]] changes the caller's dict, so the dict is part of
    what the method leaves, with the store and the plugin. *)
Definition on_settings_save
    (framework_save : gmap string CfgVal -> Settings -> Settings)
    (data : gmap string CfgVal) (store : Settings) (hub : Hub) (w : State)
    : Res unit * (gmap string CfgVal * Settings * State) :=
  match
    match data !! CONFIG_ADDRESS with
    | Some v =>
        res_bind (re_sub_trailing_slashes v)
                 (fun v' => Ok (<[CONFIG_ADDRESS := v']> data))
    | None => Ok data
    end
  with
  | Raise e => (Raise e, (data, store, w))
  | Ok data' =>
      let store' := framework_save data' store in
      let (r, w') := reload_settings store' hub w in
      (r, (data', store', w'))
  end.

(** [n] slashes. *)
Fixpoint slashes (n : nat) : string :=
  match n with
  | O => EmptyString
  | S m => String slash (slashes m)
  end.

(** Is [c] the last character of [s]? *)
Fixpoint ends_with (c : ascii) (s : string) : bool :=
  match s with
  | EmptyString => false
  | String a EmptyString => Ascii.eqb a c
  | String _ rest => ends_with c rest
  end.

(** A store that keeps what is saved: the host's store as far as the
    plugin's own keys go. *)
Definition dict_store_save (data : gmap string CfgVal) (store : Settings)
    : Settings :=
  mkSettings
    (fun k => default (settings_get store k) (data !! k))
    (fun k => default (settings_get_boolean store k) (data !! k)).

(** The address in the dict that [on_settings_save] leaves when it is given
    [data] with the address [s]. *)
Definition saved_address
    (framework_save : gmap string CfgVal -> Settings -> Settings)
    (data : gmap string CfgVal) (store : Settings) (hub : Hub) (w : State)
    (s : string) : option CfgVal :=
  fst (fst (snd (on_settings_save framework_save
                   (<[CONFIG_ADDRESS := CfgStr s]> data) store hub w)))
    !! CONFIG_ADDRESS.

(** The decoded answers of which [[0]['state']] raises [IndexError] or
    [KeyError]: the empty array, an array whose first entry is an object
    without [state], the empty string, and every object. *)
Definition lacks_state (j : PyVal) : Prop :=
  j = PyList [] \/
  (exists d rest, j = PyList (PyDict d :: rest) /\ dict_get d "state" = None) \/
  j = PyStr EmptyString \/
  (exists d, j = PyDict d).

(** ** Basic facts *)

Lemma new_events_emit (evs : list Event) (w : State) :
  new_events w (emit evs w) = evs.
Proof.
  unfold new_events, emit; simpl. apply drop_app_length.
Qed.

Lemma emit_emit (e1 e2 : list Event) (w : State) :
  emit e2 (emit e1 w) = emit (e1 ++ e2) w.
Proof.
  unfold emit; simpl. by rewrite <- app_assoc.
Qed.

Lemma http_log_app (t1 t2 : list Event) :
  http_log (t1 ++ t2) = http_log t1 ++ http_log t2.
Proof.
  induction t1 as [|ev t1 IH]; [done|].
  destruct ev; simpl; by rewrite IH.
Qed.

Lemma sleeps_app (t1 t2 : list Event) :
  sleeps (t1 ++ t2) = sleeps t1 ++ sleeps t2.
Proof.
  induction t1 as [|ev t1 IH]; [done|].
  destruct ev; simpl; by rewrite IH.
Qed.

Lemma effects_app (t1 t2 : list Event) :
  effects (t1 ++ t2) = effects t1 ++ effects t2.
Proof.
  induction t1 as [|ev t1 IH]; [done|].
  destruct ev; simpl; by rewrite IH.
Qed.

(** A complete configuration holds three truthy settings. *)
Lemma is_config_completed_true (cfg : gmap string CfgVal) :
  is_config_completed cfg = true <->
  exists a e k,
    cfg !! CONFIG_ADDRESS = Some a /\ truthy a = true /\
    cfg !! CONFIG_ENTITY_ID = Some e /\ truthy e = true /\
    cfg !! CONFIG_API_KEY = Some k /\ truthy k = true.
Proof.
  unfold is_config_completed, cfg_getitem. split.
  - destruct (cfg !! CONFIG_ADDRESS) as [a|] eqn:Ha; simpl; [|done].
    destruct (truthy a) eqn:Ta; [|congruence].
    destruct (cfg !! CONFIG_ENTITY_ID) as [e|] eqn:He; simpl; [|done].
    destruct (truthy e) eqn:Te; [|congruence].
    destruct (cfg !! CONFIG_API_KEY) as [k|] eqn:Hk; simpl; [|done].
    intros Tk. by exists a, e, k.
  - intros (a & e & k & -> & Ta & -> & Te & -> & Tk); simpl.
    rewrite Ta; simpl. by rewrite Te.
Qed.

(** An incomplete one lacks at least one of them. *)
Lemma is_config_completed_false (cfg : gmap string CfgVal) :
  is_config_completed cfg = false <->
  unset cfg CONFIG_ADDRESS \/ unset cfg CONFIG_ENTITY_ID \/
  unset cfg CONFIG_API_KEY.
Proof.
  unfold is_config_completed, cfg_getitem, unset. split.
  - destruct (cfg !! CONFIG_ADDRESS) as [a|]; simpl; [|by left].
    destruct (truthy a) eqn:Ta; [|by left].
    destruct (cfg !! CONFIG_ENTITY_ID) as [e|]; simpl; [|by right; left].
    destruct (truthy e) eqn:Te; [|by right; left].
    destruct (cfg !! CONFIG_API_KEY) as [k|]; simpl; [|by right; right].
    intros Tk. by right; right.
  - destruct (cfg !! CONFIG_ADDRESS) as [a|]; simpl; [|done].
    destruct (truthy a) eqn:Ta; [|done].
    destruct (cfg !! CONFIG_ENTITY_ID) as [e|]; simpl; [|done].
    destruct (truthy e) eqn:Te; [|done].
    destruct (cfg !! CONFIG_API_KEY) as [k|]; simpl; [|done].
    intros [H|[H|H]]; congruence.
Qed.

(** ** Running the methods *)

(** Closes an equation between two results that hold the same state. *)
Ltac same_state :=
  unfold emit; simpl; rewrite <- ?app_assoc; simpl; reflexivity.

(** Unfolds the monad and the primitives of a method applied to a state. *)
Ltac run :=
  unfold bind, ret, lift, try_, log, time_sleep, send_plugin_message,
    get_config, get_isLightOn, set_isLightOn, config_getitem, cfg_getitem,
    requests_get, requests_post, request, log_request_failure; simpl.

Lemma effects_nil_http (tr : list Event) : effects tr = [] -> http_log tr = [].
Proof.
  induction tr as [|ev tr IH]; [done|]. destruct ev; simpl; auto; discriminate.
Qed.

Lemma effects_nil_sleeps (tr : list Event) : effects tr = [] -> sleeps tr = [].
Proof.
  induction tr as [|ev tr IH]; [done|]. destruct ev; simpl; auto; discriminate.
Qed.

Lemma is_HA_state_on_disabled (hub : Hub) (w : State) :
  is_config_completed (config w) = false ->
  is_HA_state_on hub w =
    (Ok (Some false),
     emit [EvLog DEBUG "getting current status of light" [];
           EvLog WARNING
             "configuration is not complete, light controls are disabled" []]
          w).
Proof.
  intros Hc. unfold is_HA_state_on. run. rewrite Hc; simpl.
  by rewrite emit_emit.
Qed.

Lemma is_HA_state_on_query (hub : Hub) (w : State) (a e k v : CfgVal) :
  is_config_completed (config w) = true ->
  config w !! CONFIG_ADDRESS = Some a ->
  config w !! CONFIG_ENTITY_ID = Some e ->
  config w !! CONFIG_API_KEY = Some k ->
  config w !! CONFIG_VERIFY_CERTIFICATE = Some v ->
  let req := states_request a e k v in
  let out := hub (effects (trace w)) req in
  exists logs,
    effects logs = [] /\
    is_HA_state_on hub w =
      (Ok (query_result out),
       emit (EvLog DEBUG "getting current status of light" []
             :: EvHttp req out :: logs) w).
Proof.
  intros Hc Ha He Hk Hv req out.
  unfold is_HA_state_on. run. rewrite Hc; simpl. rewrite Ha, He, Hk, Hv; simpl.
  rewrite effects_app; simpl; rewrite app_nil_r.
  fold (states_request a e k v). fold req. fold out. unfold query_result.
  destruct out as [err|body]; simpl.
  - destruct (is_unreachable err); simpl; eexists [_; _];
      (split; [|same_state]); reflexivity.
  - destruct (queried_status body) as [status|err]; simpl.
    + eexists [_]. split; [|same_state]. reflexivity.
    + eexists [_; _]. split; [|same_state]. reflexivity.
Qed.

Lemma is_HA_state_on_no_flag (hub : Hub) (w : State) :
  is_config_completed (config w) = true ->
  config w !! CONFIG_VERIFY_CERTIFICATE = None ->
  is_HA_state_on hub w =
    (Raise KeyError,
     emit [EvLog DEBUG "getting current status of light" []] w).
Proof.
  intros Hc Hv.
  destruct (proj1 (is_config_completed_true _) Hc)
    as (a & e & k & Ha & _ & He & _ & Hk & _).
  unfold is_HA_state_on. run. rewrite Hc; simpl. by rewrite Ha, He, Hk, Hv.
Qed.

Lemma split_char_head (sep : ascii) (s : string) :
  exists t, split_char sep s = before_first sep s :: t.
Proof.
  induction s as [|c s [t IH]]; simpl; [by exists []|].
  destruct (Ascii.eqb c sep); [by eexists|].
  rewrite IH. by eexists.
Qed.

Lemma entity_domain (sep : ascii) (s : string) :
  seq_index (split_char sep s) 0 = Ok (before_first sep s).
Proof.
  destruct (split_char_head sep s) as [t ->]. unfold seq_index; simpl.
  by destruct (length t).
Qed.

Lemma toggle_HA_state_disabled (hub : Hub) (w : State) :
  is_config_completed (config w) = false ->
  toggle_HA_state hub w =
    (Ok None,
     emit [EvLog DEBUG "toggling light" [];
           EvLog WARNING
             "configuration is not complete, light controls are disabled" []]
          w).
Proof.
  intros Hc. unfold toggle_HA_state. run. rewrite Hc; simpl. same_state.
Qed.

Lemma toggle_HA_state_no_split (hub : Hub) (w : State) (e : CfgVal) :
  is_config_completed (config w) = true ->
  config w !! CONFIG_ENTITY_ID = Some e ->
  (forall s, e <> CfgStr s) ->
  toggle_HA_state hub w =
    (Raise AttributeError, emit [EvLog DEBUG "toggling light" []] w).
Proof.
  intros Hc He Hs. unfold toggle_HA_state. run. rewrite Hc; simpl.
  rewrite He; simpl. destruct e; simpl; try done. by destruct (Hs s).
Qed.

Lemma toggle_HA_state_no_flag (hub : Hub) (w : State) (s : string) :
  is_config_completed (config w) = true ->
  config w !! CONFIG_ENTITY_ID = Some (CfgStr s) ->
  config w !! CONFIG_VERIFY_CERTIFICATE = None ->
  toggle_HA_state hub w =
    (Raise KeyError, emit [EvLog DEBUG "toggling light" []] w).
Proof.
  intros Hc He Hv.
  destruct (proj1 (is_config_completed_true _) Hc)
    as (a & e & k & Ha & _ & _ & _ & Hk & _).
  unfold toggle_HA_state. run. rewrite Hc; simpl.
  rewrite He; simpl. rewrite entity_domain; simpl. by rewrite Ha, Hk, Hv.
Qed.

Section TogglePost.
Variables (hub : Hub) (w : State) (a k v : CfgVal) (s : string).
Hypothesis Hc : is_config_completed (config w) = true.
Hypothesis Ha : config w !! CONFIG_ADDRESS = Some a.
Hypothesis He : config w !! CONFIG_ENTITY_ID = Some (CfgStr s).
Hypothesis Hk : config w !! CONFIG_API_KEY = Some k.
Hypothesis Hv : config w !! CONFIG_VERIFY_CERTIFICATE = Some v.

Let w0 := emit [EvLog DEBUG "toggling light" []] w.
Let req := toggle_request a s (before_first "." s) k v.
Let out := hub (effects (trace w)) req.

Lemma toggle_HA_state_post :
  toggle_HA_state hub w =
    match out with
    | NetRaise err =>
        (Ok None,
         emit [EvHttp req out;
               if is_unreachable err
               then EvLog ERROR
                      "unable to communicate with server, please check settings, error: {err}"
                      [AErr err]
               else EvLog EXCEPTION "exception while making API call: {err}"
                      [AErr err];
               toggle_verdict None (isLightOn w)] w0)
    | NetResponse body =>
        match toggled_status body with
        | Ok status =>
            (Ok (Some (_parse_status status)),
             emit [EvHttp req out;
                   toggle_verdict (Some (_parse_status status))
                                  (isLightOn w)] w0)
        | Raise err =>
            if is_index_or_key err then
              match
                is_HA_state_on hub
                  (emit [EvHttp req out;
                         EvLog DEBUG "new status not reported, sleeping..."
                               [];
                         EvSleep 1] w0)
              with
              | (Ok r, w2) =>
                  (Ok r, emit [toggle_verdict r (isLightOn w)] w2)
              | (Raise exn, w2) => (Raise exn, w2)
              end
            else
              (Ok None,
               emit [EvHttp req out;
                     EvLog EXCEPTION
                       "exception while parsing API result: {err}"
                       [AErr err];
                     toggle_verdict None (isLightOn w)] w0)
        end
    end.
Proof.
  unfold toggle_HA_state. run. rewrite Hc; simpl.
  rewrite He; simpl. rewrite entity_domain; simpl. rewrite Ha, Hk, Hv; simpl.
  rewrite effects_app; simpl; rewrite app_nil_r.
  fold (toggle_request a s (before_first "." s) k v). fold req. fold out.
  destruct out as [err|body]; simpl.
  - unfold toggle_verdict.
    destruct (is_unreachable err); simpl;
      destruct (isLightOn w) as [[|]|]; simpl; same_state.
  - destruct (toggled_status body) as [status|err]; simpl.
    + unfold toggle_verdict.
      destruct (_parse_status status), (isLightOn w) as [[|]|]; simpl;
        same_state.
    + destruct (is_index_or_key err); simpl.
      * unfold w0, emit; simpl. rewrite <- !app_assoc; simpl.
        destruct (is_HA_state_on hub _) as [[r|exn] w2]; [|done].
        unfold toggle_verdict.
        destruct r as [[|]|], (isLightOn w) as [[|]|]; simpl; reflexivity.
      * unfold toggle_verdict.
        destruct (isLightOn w) as [[|]|]; simpl; same_state.
Qed.
End TogglePost.

(** ** The log does not steer the plugin *)

Lemma same_view_refl (w : State) : same_view w w.
Proof. by repeat split. Qed.

Lemma state_eta (w : State) :
  w = mkState (config w) (isLightOn w) (trace w ++ []).
Proof. destruct w; simpl. by rewrite app_nil_r. Qed.

Lemma log_equiv_pure {A} (f : State -> Res A) :
  (forall w w', same_view w w' -> f w = f w') ->
  log_equiv (fun _ w => (f w, w)) (fun _ w => (f w, w)).
Proof.
  intros Hf hub w w' Hs. exists (f w), (isLightOn w), [], [].
  rewrite <- (Hf w w' Hs). destruct Hs as (Hc & Hl & Ht).
  rewrite Hl at 2. by rewrite <- !state_eta.
Qed.

Lemma log_equiv_emit (evs evs' : list Event) :
  effects evs = effects evs' ->
  log_equiv (fun _ w => (Ok tt, emit evs w)) (fun _ w => (Ok tt, emit evs' w)).
Proof.
  intros He hub w w' (Hc & Hl & Ht). exists (Ok tt), (isLightOn w), evs, evs'.
  unfold emit. by rewrite Hl.
Qed.

Lemma log_equiv_ret {A} (a : A) : log_equiv (ret a) (ret a).
Proof. by apply (log_equiv_pure (fun _ => Ok a)). Qed.

Lemma log_equiv_lift {A} (r : Res A) : log_equiv (lift r) (lift r).
Proof. by apply (log_equiv_pure (fun _ => r)). Qed.

Lemma log_equiv_bind {A B} (m m' : M A) (k k' : A -> M B) :
  log_equiv m m' -> (forall a, log_equiv (k a) (k' a)) ->
  log_equiv (bind m k) (bind m' k').
Proof.
  intros Hm Hk hub w w' Hs. unfold bind.
  destruct (Hm hub w w' Hs) as (r & st & evs & evs' & -> & -> & He).
  destruct r as [a|e]; [|by exists (Raise e), st, evs, evs'].
  destruct (Hk a hub (mkState (config w) st (trace w ++ evs))
                     (mkState (config w') st (trace w' ++ evs')))
    as (r2 & st2 & evs2 & evs2' & -> & -> & He2).
  { destruct Hs as (Hc & _ & Ht). repeat split; simpl; [done|].
    by rewrite !effects_app, Ht, He. }
  exists r2, st2, (evs ++ evs2), (evs' ++ evs2'); simpl.
  rewrite !app_assoc. repeat split. by rewrite !effects_app, He, He2.
Qed.

Lemma log_equiv_try {A} (m m' : M A) :
  log_equiv m m' -> log_equiv (try_ m) (try_ m').
Proof.
  intros Hm hub w w' Hs. unfold try_.
  destruct (Hm hub w w' Hs) as (r & st & evs & evs' & -> & -> & He).
  by exists (Ok r), st, evs, evs'.
Qed.

(** Two log calls are as good as each other. *)
Lemma log_equiv_log (lvl lvl' : Level) (msg msg' : string)
    (args args' : list LogArg) :
  log_equiv (log lvl msg args) (log lvl' msg' args').
Proof. by apply log_equiv_emit. Qed.

Lemma log_equiv_get_config : log_equiv get_config get_config.
Proof.
  apply (log_equiv_pure (fun w => Ok (config w))).
  by intros w w' (-> & _).
Qed.

Lemma log_equiv_get_isLightOn : log_equiv get_isLightOn get_isLightOn.
Proof.
  apply (log_equiv_pure (fun w => Ok (isLightOn w))).
  by intros w w' (_ & -> & _).
Qed.

Lemma log_equiv_set_isLightOn (st : option bool) :
  log_equiv (set_isLightOn st) (set_isLightOn st).
Proof.
  intros hub w w' Hs. exists (Ok tt), st, [], []. unfold set_isLightOn.
  by rewrite !app_nil_r.
Qed.

Lemma log_equiv_request (req : Request) : log_equiv (request req) (request req).
Proof.
  intros hub w w' (Hc & Hl & Ht). unfold request, emit. rewrite <- Ht, <- Hl.
  by eexists _, _, _, _.
Qed.

Lemma log_equiv_time_sleep (secs : Z) :
  log_equiv (time_sleep secs) (time_sleep secs).
Proof. by apply log_equiv_emit. Qed.

Lemma log_equiv_send_plugin_message (payload : PyVal) :
  log_equiv (send_plugin_message payload) (send_plugin_message payload).
Proof. by apply log_equiv_emit. Qed.

Create HintDb blind.
#[local] Hint Resolve log_equiv_ret log_equiv_lift log_equiv_try log_equiv_log
  log_equiv_get_config log_equiv_get_isLightOn log_equiv_set_isLightOn
  log_equiv_request log_equiv_time_sleep log_equiv_send_plugin_message : blind.

(** Walks two methods of the same shape down to their primitives. *)
Ltac blind :=
  repeat match goal with
         | |- log_equiv (bind _ _) (bind _ _) =>
             apply log_equiv_bind; [|intros ?]
         | |- log_equiv (if ?b then _ else _) (if ?b then _ else _) =>
             destruct b
         | |- log_equiv (match ?x with _ => _ end) (match ?x with _ => _ end) =>
             destruct x
         | |- _ => solve [auto with blind]
         end.

Lemma log_equiv_config_getitem (k : string) :
  log_equiv (config_getitem k) (config_getitem k).
Proof. unfold config_getitem. blind. Qed.

Lemma log_equiv_log_request_failure (e : PyExn) :
  log_equiv (log_request_failure e) (log_request_failure e).
Proof. unfold log_request_failure. blind. Qed.

#[local] Hint Resolve log_equiv_config_getitem log_equiv_log_request_failure
  : blind.

Lemma log_equiv_is_HA_state_on : log_equiv is_HA_state_on is_HA_state_on.
Proof. unfold is_HA_state_on, requests_get. blind. Qed.

#[local] Hint Resolve log_equiv_is_HA_state_on : blind.

Lemma log_equiv_toggle_HA_state : log_equiv toggle_HA_state toggle_HA_state.
Proof. unfold toggle_HA_state, requests_post. blind. Qed.

#[local] Hint Resolve log_equiv_toggle_HA_state : blind.

Lemma log_equiv_toggle_light : log_equiv toggle_light toggle_light.
Proof. unfold toggle_light. blind. Qed.

Lemma log_equiv_refresh_light_status :
  log_equiv refresh_light_status refresh_light_status.
Proof. unfold refresh_light_status. blind. Qed.

#[local] Hint Resolve log_equiv_toggle_light log_equiv_refresh_light_status
  : blind.

(** The same handler tail under two debug messages. *)
Lemma log_equiv_log_if_changed (old : option bool) (msg msg' : string) :
  log_equiv (log_if_changed old msg) (log_if_changed old msg').
Proof. unfold log_if_changed. blind. Qed.

Lemma log_equiv_respond_state : log_equiv respond_state respond_state.
Proof. unfold respond_state. blind. Qed.

#[local] Hint Resolve log_equiv_log_if_changed log_equiv_respond_state : blind.

(** ** The state query *)

Lemma events_of_emit {A} (m : M A) (hub : Hub) (w : State) (r : Res A)
    (evs : list Event) :
  m hub w = (r, emit evs w) -> events_of m hub w = evs.
Proof.
  intros H. unfold events_of. rewrite H. apply new_events_emit.
Qed.

Lemma result_of_eq {A} (m : M A) (hub : Hub) (w w' : State) (r : Res A) :
  m hub w = (r, w') -> result_of m hub w = r.
Proof.
  intros H. unfold result_of. by rewrite H.
Qed.

(** Either [is_HA_state_on] stops before its request (disabled, or no
    certificate flag in the dict), or it makes one GET and returns what the
    answer gives. *)
Lemma is_HA_state_on_cases (hub : Hub) (w : State) :
  (exists r logs,
     effects logs = [] /\ is_HA_state_on hub w = (r, emit logs w)) \/
  (exists req logs,
     effects logs = [] /\ method req = GET /\
     is_HA_state_on hub w =
       (Ok (query_result (hub (effects (trace w)) req)),
        emit (EvLog DEBUG "getting current status of light" []
              :: EvHttp req (hub (effects (trace w)) req) :: logs) w)).
Proof.
  destruct (is_config_completed (config w)) eqn:Hc.
  - destruct (proj1 (is_config_completed_true _) Hc)
      as (a & e & k & Ha & _ & He & _ & Hk & _).
    destruct (config w !! CONFIG_VERIFY_CERTIFICATE) as [v|] eqn:Hv.
    + right. destruct (is_HA_state_on_query hub w a e k v Hc Ha He Hk Hv)
        as (logs & Hl & Hrun).
      by exists (states_request a e k v), logs.
    + left. eexists _, [_]. split; [|by apply is_HA_state_on_no_flag].
      reflexivity.
  - left. eexists _, [_; _]. split; [|by apply is_HA_state_on_disabled].
    reflexivity.
Qed.

Lemma is_HA_state_on_answer (hub : Hub) (w : State) (req : Request)
    (out : Outcome) :
  In (req, out) (http_log (events_of is_HA_state_on hub w)) ->
  result_of is_HA_state_on hub w = Ok (query_result out).
Proof.
  destruct (is_HA_state_on_cases hub w)
    as [(r & logs & Hl & Hrun)|(req0 & logs & Hl & _ & Hrun)];
    rewrite (events_of_emit _ _ _ _ _ Hrun), (result_of_eq _ _ _ _ _ Hrun).
  - by rewrite (effects_nil_http _ Hl).
  - simpl. rewrite (effects_nil_http _ Hl). intros [Heq|[]].
    by injection Heq as _ ->.
Qed.

(** C5: whenever the hub's answer to the state query is a JSON object with
    a string field [state], [is_HA_state_on] returns [True] for ["on"] and
    [False] for every other string. *)
Theorem query_maps_state_string (hub : Hub) (w : State) (req : Request)
    (d : list (string * PyVal)) (s : string) :
  In (req, NetResponse (Some (PyDict d)))
     (http_log (events_of is_HA_state_on hub w)) ->
  dict_get d "state" = Some (PyStr s) ->
  result_of is_HA_state_on hub w = Ok (Some (bool_decide (s = "on"))).
Proof.
  intros Hin Hd. rewrite (is_HA_state_on_answer _ _ _ _ Hin).
  unfold query_result, queried_status; simpl. rewrite Hd; simpl.
  do 2 f_equal. destruct (String.eqb_spec s "on") as [->|Hne].
  - by rewrite bool_decide_eq_true_2.
  - by rewrite bool_decide_eq_false_2.
Qed.

Lemma query_maps_state_string_witness :
  result_of is_HA_state_on (hub_slow "on") (mkState kitchen_config None [])
    = Ok (Some true) /\
  result_of is_HA_state_on (hub_slow "off") (mkState kitchen_config None [])
    = Ok (Some false).
Proof.
  split.
  - apply (query_maps_state_string (hub_slow "on")
             (mkState kitchen_config None [])
             (states_request (CfgStr "http://hub.local")
                (CfgStr "light.kitchen") (CfgStr "secret") (CfgBool false))
             [("state", PyStr "on")] "on").
    + vm_compute. by left.
    + reflexivity.
  - apply (query_maps_state_string (hub_slow "off")
             (mkState kitchen_config None [])
             (states_request (CfgStr "http://hub.local")
                (CfgStr "light.kitchen") (CfgStr "secret") (CfgBool false))
             [("state", PyStr "off")] "off").
    + vm_compute. by left.
    + reflexivity.
Defined.

(** C9: [_parse_status] is case-sensitive: every string other than the
    lowercase ["on"] parses to [False] (so do ["ON"], ["On"] and ["true"]),
    and a hub that reports the state in a different capitalization makes
    [is_HA_state_on] return [False]. *)
Theorem parse_status_case_sensitive (s : string) :
  s <> "on" ->
  _parse_status (PyStr s) = false /\
  (forall hub w req d,
     In (req, NetResponse (Some (PyDict d)))
        (http_log (events_of is_HA_state_on hub w)) ->
     dict_get d "state" = Some (PyStr s) ->
     result_of is_HA_state_on hub w = Ok (Some false)).
Proof.
  intros Hne.
  assert (Hp : _parse_status (PyStr s) = false).
  { simpl. by destruct (String.eqb_spec s "on"). }
  split; [done|]. intros hub w req d Hin Hd.
  rewrite (is_HA_state_on_answer _ _ _ _ Hin).
  unfold query_result, queried_status; simpl. rewrite Hd; simpl.
  by destruct (String.eqb_spec s "on").
Qed.

Lemma parse_status_case_sensitive_witness :
  _parse_status (PyStr "ON") = false /\
  _parse_status (PyStr "On") = false /\
  _parse_status (PyStr "true") = false /\
  result_of is_HA_state_on (hub_slow "ON") (mkState kitchen_config None [])
    = Ok (Some false).
Proof.
  split; [|split; [|split]].
  - apply (parse_status_case_sensitive "ON"). discriminate.
  - apply (parse_status_case_sensitive "On"). discriminate.
  - apply (parse_status_case_sensitive "true"). discriminate.
  - apply (proj2 (parse_status_case_sensitive "ON" ltac:(discriminate))
             (hub_slow "ON") (mkState kitchen_config None [])
             (states_request (CfgStr "http://hub.local")
                (CfgStr "light.kitchen") (CfgStr "secret") (CfgBool false))
             [("state", PyStr "ON")]).
    + vm_compute. by left.
    + reflexivity.
Defined.

(** ** Incomplete configuration *)

Lemma toggle_light_disabled (hub : Hub) (w : State) :
  is_config_completed (config w) = false ->
  toggle_light hub w =
    (Ok tt,
     mkState (config w) None
       (trace w ++
        [EvLog DEBUG "toggling light" [];
         EvLog WARNING
           "configuration is not complete, light controls are disabled" [];
         EvPluginMessage (plugin_message None)])).
Proof.
  intros Hc. unfold toggle_light, bind.
  rewrite (toggle_HA_state_disabled hub w Hc). run. same_state.
Qed.

Lemma refresh_light_status_disabled (hub : Hub) (w : State) :
  is_config_completed (config w) = false ->
  refresh_light_status hub w =
    (Ok tt,
     mkState (config w) (Some false)
       (trace w ++
        [EvLog DEBUG "getting current status of light" [];
         EvLog WARNING
           "configuration is not complete, light controls are disabled" [];
         EvPluginMessage (plugin_message (Some false))])).
Proof.
  intros Hc. unfold refresh_light_status, bind.
  rewrite (is_HA_state_on_disabled hub w Hc). run. same_state.
Qed.

Lemma get_state_action_disabled (hub : Hub) (w : State) :
  is_config_completed (config w) = false ->
  result_of get_state_action hub w = Ok (PyDict [("state", PyBool false)]) /\
  http_log (events_of get_state_action hub w) = [].
Proof.
  intros Hc. unfold result_of, events_of, new_events, get_state_action,
    on_api_get.
  run. unfold bind.
  rewrite refresh_light_status_disabled by done.
  unfold log_if_changed, respond_state. run.
  destruct (isLightOn w) as [[|]|]; simpl;
    rewrite <- ?app_assoc, drop_app_length; by split.
Qed.

(** C4: when any of [address], [entity_id], [api_key] is empty (or missing),
    [is_HA_state_on] makes no network call and returns [False], which the
    [getState] action answers as [{"state": false}], and neither
    [toggle_HA_state] nor [toggle_light] makes a network call. *)
Theorem disabled_makes_no_call (hub : Hub) (w : State) :
  unset (config w) CONFIG_ADDRESS \/ unset (config w) CONFIG_ENTITY_ID \/
  unset (config w) CONFIG_API_KEY ->
  result_of is_HA_state_on hub w = Ok (Some false) /\
  http_log (events_of is_HA_state_on hub w) = [] /\
  result_of get_state_action hub w = Ok (PyDict [("state", PyBool false)]) /\
  http_log (events_of get_state_action hub w) = [] /\
  http_log (events_of toggle_HA_state hub w) = [] /\
  http_log (events_of toggle_light hub w) = [].
Proof.
  intros Hu. apply is_config_completed_false in Hu.
  pose proof (is_HA_state_on_disabled hub w Hu) as Hq.
  pose proof (toggle_HA_state_disabled hub w Hu) as Ht.
  pose proof (toggle_light_disabled hub w Hu) as Hl.
  destruct (get_state_action_disabled hub w Hu) as [Hg1 Hg2].
  rewrite (result_of_eq _ _ _ _ _ Hq), (events_of_emit _ _ _ _ _ Hq),
    (events_of_emit _ _ _ _ _ Ht).
  repeat split; try done. unfold events_of, new_events. rewrite Hl; simpl.
  by rewrite drop_app_length.
Qed.

Lemma disabled_makes_no_call_witness :
  let w := mkState (<[CONFIG_ENTITY_ID := CfgStr EmptyString]> kitchen_config)
                   (Some true) [] in
  result_of is_HA_state_on (hub_slow "on") w = Ok (Some false) /\
  http_log (events_of is_HA_state_on (hub_slow "on") w) = [] /\
  result_of get_state_action (hub_slow "on") w
    = Ok (PyDict [("state", PyBool false)]) /\
  http_log (events_of get_state_action (hub_slow "on") w) = [] /\
  http_log (events_of toggle_HA_state (hub_slow "on") w) = [] /\
  http_log (events_of toggle_light (hub_slow "on") w) = [].
Proof.
  apply (disabled_makes_no_call (hub_slow "on")
           (mkState (<[CONFIG_ENTITY_ID := CfgStr EmptyString]> kitchen_config)
                    (Some true) [])).
  right; left. vm_compute. reflexivity.
Defined.

(** ** The toggle *)

Lemma toggle_verdict_is_log (r old : option bool) :
  effects [toggle_verdict r old] = [].
Proof. unfold toggle_verdict. by destruct (negb _). Qed.

Section ToggleOutcome.
Variables (hub : Hub) (w : State) (a k v : CfgVal) (s : string).
Hypothesis Hc : is_config_completed (config w) = true.
Hypothesis Ha : config w !! CONFIG_ADDRESS = Some a.
Hypothesis He : config w !! CONFIG_ENTITY_ID = Some (CfgStr s).
Hypothesis Hk : config w !! CONFIG_API_KEY = Some k.
Hypothesis Hv : config w !! CONFIG_VERIFY_CERTIFICATE = Some v.

Let req := toggle_request a s (before_first "." s) k v.
Let out := hub (effects (trace w)) req.

Lemma toggle_HA_state_direct :
  state_not_reported out = false ->
  exists logs,
    effects logs = [] /\
    toggle_HA_state hub w =
      (Ok (toggled_result out),
       emit (EvLog DEBUG "toggling light" [] :: EvHttp req out :: logs) w).
Proof.
  intros Hn. rewrite (toggle_HA_state_post hub w a k v s Hc Ha He Hk Hv).
  fold req. fold out. unfold state_not_reported, toggled_result in *.
  destruct out as [err|body].
  - eexists [_; _]. split; [|rewrite emit_emit; reflexivity].
    unfold toggle_verdict.
    by destruct (is_unreachable err), (negb _).
  - destruct (toggled_status body) as [status|err].
    + eexists [_]. split; [|rewrite emit_emit; reflexivity].
      apply toggle_verdict_is_log.
    + rewrite Hn. eexists [_; _]. split; [|rewrite emit_emit; reflexivity].
      unfold toggle_verdict. by destruct (negb _).
Qed.

Let w1 := emit [EvLog DEBUG "toggling light" []; EvHttp req out;
                EvLog DEBUG "new status not reported, sleeping..." [];
                EvSleep 1] w.
Let req2 := states_request a (CfgStr s) k v.
Let out2 := hub (effects (trace w) ++ [EvHttp req out; EvSleep 1]) req2.

Lemma toggle_HA_state_retry :
  state_not_reported out = true ->
  exists logs,
    effects logs = [] /\
    is_HA_state_on hub w1 =
      (Ok (query_result out2),
       emit (EvLog DEBUG "getting current status of light" []
             :: EvHttp req2 out2 :: logs) w1) /\
    toggle_HA_state hub w =
      (Ok (query_result out2),
       emit (EvLog DEBUG "getting current status of light" []
             :: EvHttp req2 out2
             :: logs ++ [toggle_verdict (query_result out2) (isLightOn w)])
            w1).
Proof.
  intros Hn.
  destruct (is_HA_state_on_query hub w1 a (CfgStr s) k v Hc Ha He Hk Hv)
    as (logs & Hl & Hq).
  assert (Hview : effects (trace w1)
                  = effects (trace w) ++ [EvHttp req out; EvSleep 1]).
  { unfold w1; simpl. by rewrite effects_app. }
  rewrite Hview in Hq. fold req2 in Hq. fold out2 in Hq.
  exists logs. split; [done|]. split; [done|].
  rewrite (toggle_HA_state_post hub w a k v s Hc Ha He Hk Hv).
  fold req. fold out. unfold state_not_reported in Hn.
  destruct out as [err|body] eqn:Hout; [done|].
  destruct (toggled_status body) as [status|err]; [done|]. rewrite Hn.
  rewrite emit_emit. simpl. fold w1. rewrite Hq. rewrite emit_emit.
  reflexivity.
Qed.
End ToggleOutcome.

(** Either [toggle_HA_state] stops before its request, or the dict holds the
    four settings the request is built from. *)
Lemma toggle_HA_state_cases (hub : Hub) (w : State) :
  (exists r logs,
     effects logs = [] /\ toggle_HA_state hub w = (r, emit logs w)) \/
  (exists a s k v,
     is_config_completed (config w) = true /\
     config w !! CONFIG_ADDRESS = Some a /\
     config w !! CONFIG_ENTITY_ID = Some (CfgStr s) /\
     config w !! CONFIG_API_KEY = Some k /\
     config w !! CONFIG_VERIFY_CERTIFICATE = Some v).
Proof.
  destruct (is_config_completed (config w)) eqn:Hc.
  - destruct (proj1 (is_config_completed_true _) Hc)
      as (a & e & k & Ha & _ & He & _ & Hk & _).
    destruct e as [s| |].
    + destruct (config w !! CONFIG_VERIFY_CERTIFICATE) as [v|] eqn:Hv.
      * right. by exists a, s, k, v.
      * left. eexists _, [_].
        split; [|by apply (toggle_HA_state_no_flag hub w s)]. reflexivity.
    + left. eexists _, [_].
      split; [|by apply (toggle_HA_state_no_split hub w (CfgBool b))].
      reflexivity.
    + left. eexists _, [_].
      split; [|by apply (toggle_HA_state_no_split hub w CfgNone)].
      reflexivity.
  - left. eexists _, [_; _]. split; [|by apply toggle_HA_state_disabled].
    reflexivity.
Qed.

Lemma query_failed_result (out : Outcome) :
  query_failed out -> query_result out = None.
Proof.
  unfold query_failed, query_result. destruct out as [e|body]; [done|].
  by destruct (queried_status body).
Qed.

(** The first network call of a toggle that gets as far as its request. *)
Lemma toggle_HA_state_first_call (hub : Hub) (w : State) (a k v : CfgVal)
    (s : string) :
  is_config_completed (config w) = true ->
  config w !! CONFIG_ADDRESS = Some a ->
  config w !! CONFIG_ENTITY_ID = Some (CfgStr s) ->
  config w !! CONFIG_API_KEY = Some k ->
  config w !! CONFIG_VERIFY_CERTIFICATE = Some v ->
  let req := toggle_request a s (before_first "." s) k v in
  head (http_log (events_of toggle_HA_state hub w))
    = Some (req, hub (effects (trace w)) req).
Proof.
  intros Hc Ha He Hk Hv req.
  destruct (state_not_reported (hub (effects (trace w)) req)) eqn:Hn.
  - destruct (toggle_HA_state_retry hub w a k v s Hc Ha He Hk Hv Hn)
      as (logs & _ & _ & Hrun).
    rewrite emit_emit in Hrun. by rewrite (events_of_emit _ _ _ _ _ Hrun).
  - destruct (toggle_HA_state_direct hub w a k v s Hc Ha He Hk Hv Hn)
      as (logs & _ & Hrun).
    by rewrite (events_of_emit _ _ _ _ _ Hrun).
Qed.

(** The answers the reconciliation rule is about. *)
Example empty_array_has_no_state :
  toggled_status (Some (PyList [])) = Raise IndexError.
Proof. reflexivity. Qed.

Example entity_without_state_key :
  toggled_status (Some (PyList [PyDict [("entity_id", PyStr "light.kitchen")]]))
  = Raise KeyError.
Proof. reflexivity. Qed.

Example empty_object_has_no_first :
  toggled_status (Some (PyDict [])) = Raise KeyError.
Proof. reflexivity. Qed.

Example not_json_is_not_retried :
  toggled_status None = Raise JSONDecodeError /\
  is_index_or_key JSONDecodeError = false.
Proof. by split. Qed.

(** C1: a toggle with complete configuration whose POST is answered by a
    body without the new state (an empty array, a missing [state] key)
    sleeps once for 1 second, then calls [is_HA_state_on] once and returns
    its result; the run makes exactly two network calls, the POST and the
    GET of that query, and the result is [None] when the query fails. *)
Theorem toggle_requeries_once (hub : Hub) (w : State) (req : Request)
    (body : option PyVal) (e : PyExn) :
  is_config_completed (config w) = true ->
  head (http_log (events_of toggle_HA_state hub w))
    = Some (req, NetResponse body) ->
  toggled_status body = Raise e ->
  is_index_or_key e = true ->
  let w1 := emit [EvLog DEBUG "toggling light" [];
                  EvHttp req (NetResponse body);
                  EvLog DEBUG "new status not reported, sleeping..." [];
                  EvSleep 1] w in
  exists r w2 req2 out2,
    is_HA_state_on hub w1 = (Ok r, w2) /\
    toggle_HA_state hub w = (Ok r, emit [toggle_verdict r (isLightOn w)] w2) /\
    sleeps (events_of toggle_HA_state hub w) = [1] /\
    http_log (events_of toggle_HA_state hub w)
      = [(req, NetResponse body); (req2, out2)] /\
    method req = POST /\ method req2 = GET /\
    http_log (events_of is_HA_state_on hub w1) = [(req2, out2)] /\
    (query_failed out2 -> r = None).
Proof.
  intros Hc Hhd Hst Hik w1.
  destruct (toggle_HA_state_cases hub w)
    as [(r & logs & Hl & Hrun)|(a & s & k & v & _ & Ha & He & Hk & Hv)].
  { rewrite (events_of_emit _ _ _ _ _ Hrun), (effects_nil_http _ Hl) in Hhd.
    discriminate. }
  rewrite (toggle_HA_state_first_call hub w a k v s Hc Ha He Hk Hv) in Hhd.
  injection Hhd as Hreq Hout.
  assert (Hn : state_not_reported
                 (hub (effects (trace w))
                      (toggle_request a s (before_first "." s) k v)) = true).
  { rewrite Hout. unfold state_not_reported. by rewrite Hst. }
  destruct (toggle_HA_state_retry hub w a k v s Hc Ha He Hk Hv Hn)
    as (logs & Hl & Hq & Hrun).
  rewrite Hout, Hreq in Hq, Hrun. fold w1 in Hq, Hrun.
  set (req2 := states_request a (CfgStr s) k v) in *.
  set (out2 := hub _ req2) in *.
  eexists (query_result out2), _, req2, out2.
  split; [exact Hq|]. split.
  { rewrite Hrun. by rewrite emit_emit. }
  unfold w1 in Hrun. rewrite emit_emit in Hrun.
  rewrite (events_of_emit _ _ _ _ _ Hrun), (events_of_emit _ _ _ _ _ Hq).
  simpl. rewrite sleeps_app, http_log_app.
  rewrite (effects_nil_sleeps _ Hl), (effects_nil_http _ Hl).
  assert (Hv1 : effects [toggle_verdict (query_result out2) (isLightOn w)]
                = []) by apply toggle_verdict_is_log.
  rewrite (effects_nil_sleeps _ Hv1), (effects_nil_http _ Hv1).
  repeat split; try by rewrite <- Hreq. apply query_failed_result.
Qed.

Lemma toggle_requeries_once_witness :
  result_of toggle_HA_state (hub_slow "on")
            (mkState kitchen_config (Some false) [])
    = Ok (Some true) /\
  sleeps (events_of toggle_HA_state (hub_slow "on")
            (mkState kitchen_config (Some false) [])) = [1] /\
  length (http_log (events_of toggle_HA_state (hub_slow "on")
            (mkState kitchen_config (Some false) []))) = 2%nat.
Proof.
  destruct (toggle_requeries_once (hub_slow "on")
              (mkState kitchen_config (Some false) [])
              (toggle_request (CfgStr "http://hub.local") "light.kitchen"
                 "light" (CfgStr "secret") (CfgBool false))
              (Some (PyList [])) IndexError)
    as (r & w2 & req2 & out2 & Hq & Hrun & Hs & Hh & _).
  - reflexivity.
  - reflexivity.
  - reflexivity.
  - reflexivity.
  - split; [|split].
    + reflexivity.
    + exact Hs.
    + by rewrite Hh.
Defined.

Lemma before_first_prefix (sep : ascii) (p rest : string) :
  ~ In sep (list_ascii_of_string p) ->
  before_first sep (p +:+ String sep rest) = p.
Proof.
  induction p as [|c p IH]; simpl; intros Hnot.
  - by rewrite Ascii.eqb_refl.
  - destruct (Ascii.eqb_spec c sep) as [->|Hne]; [by destruct Hnot; left|].
    rewrite IH; [done|]. intros Hin. apply Hnot. by right.
Qed.

(** C7: for an [entity_id] with a dot, the toggle posts to the service of
    the entity domain, the part of the id before its first dot:
    [light.kitchen] is toggled at [.../api/services/light/toggle]. *)
Theorem toggle_posts_to_entity_domain (hub : Hub) (w : State)
    (a k v : CfgVal) (domain name : string) :
  is_config_completed (config w) = true ->
  config w !! CONFIG_ADDRESS = Some a ->
  config w !! CONFIG_ENTITY_ID = Some (CfgStr (domain +:+ "." +:+ name)) ->
  config w !! CONFIG_API_KEY = Some k ->
  config w !! CONFIG_VERIFY_CERTIFICATE = Some v ->
  ~ In "."%char (list_ascii_of_string domain) ->
  before_first "." (domain +:+ "." +:+ name) = domain /\
  exists req out,
    head (http_log (events_of toggle_HA_state hub w)) = Some (req, out) /\
    method req = POST /\
    url req = py_str a +:+ "/api/services/" +:+ domain +:+ "/toggle".
Proof.
  intros Hc Ha He Hk Hv Hdot.
  assert (Hd : before_first "." (domain +:+ "." +:+ name) = domain)
    by exact (before_first_prefix "." domain name Hdot).
  split; [exact Hd|].
  pose proof (toggle_HA_state_first_call hub w a k v _ Hc Ha He Hk Hv) as H.
  cbv zeta in H. eexists _, _. split; [exact H|]. split; [done|].
  unfold toggle_request; cbn [url]. by rewrite Hd.
Qed.

Lemma toggle_posts_to_entity_domain_witness :
  exists req out,
    head (http_log (events_of toggle_HA_state hub_down
                      (mkState kitchen_config (Some false) [])))
      = Some (req, out) /\
    method req = POST /\
    url req = "http://hub.local/api/services/light/toggle".
Proof.
  apply (toggle_posts_to_entity_domain hub_down
           (mkState kitchen_config (Some false) [])
           (CfgStr "http://hub.local") (CfgStr "secret") (CfgBool false)
           "light" "kitchen").
  - reflexivity.
  - reflexivity.
  - reflexivity.
  - reflexivity.
  - reflexivity.
  - simpl. intros [H|[H|[H|[H|[H|[]]]]]]; discriminate.
Defined.

(** ** The cached state *)

Lemma is_HA_state_on_summary (hub : Hub) (w : State) :
  exists r evs,
    is_HA_state_on hub w = (r, emit evs w) /\
    (forall req out, last (http_log evs) = Some (req, out) ->
                     r = Ok (answer_result req out)).
Proof.
  destruct (is_HA_state_on_cases hub w)
    as [(r & logs & Hl & Hrun)|(req0 & logs & Hl & Hm & Hrun)].
  - exists r, logs. split; [done|]. by rewrite (effects_nil_http _ Hl).
  - eexists _, _. split; [exact Hrun|]. simpl.
    rewrite (effects_nil_http _ Hl). simpl. intros req out [= <- <-].
    unfold answer_result. by rewrite Hm.
Qed.

Lemma toggle_HA_state_summary (hub : Hub) (w : State) :
  exists r evs,
    toggle_HA_state hub w = (r, emit evs w) /\
    (forall req out, last (http_log evs) = Some (req, out) ->
                     r = Ok (answer_result req out)).
Proof.
  destruct (toggle_HA_state_cases hub w)
    as [(r & logs & Hl & Hrun)|(a & s & k & v & Hc & Ha & He & Hk & Hv)].
  { exists r, logs. split; [done|]. by rewrite (effects_nil_http _ Hl). }
  destruct (state_not_reported
              (hub (effects (trace w))
                   (toggle_request a s (before_first "." s) k v))) eqn:Hn.
  - destruct (toggle_HA_state_retry hub w a k v s Hc Ha He Hk Hv Hn)
      as (logs & Hl & _ & Hrun).
    rewrite emit_emit in Hrun. eexists _, _. split; [exact Hrun|].
    simpl. rewrite http_log_app, (effects_nil_http _ Hl).
    rewrite (effects_nil_http _ (toggle_verdict_is_log _ _)). simpl.
    by intros req out [= <- <-].
  - destruct (toggle_HA_state_direct hub w a k v s Hc Ha He Hk Hv Hn)
      as (logs & Hl & Hrun).
    eexists _, _. split; [exact Hrun|].
    simpl. rewrite (effects_nil_http _ Hl). simpl.
    by intros req out [= <- <-].
Qed.

(** Adopting the result of [m] as [toggle_light] and [refresh_light_status]
    do. *)
Lemma adopt_run (m : M (option bool)) (hub : Hub) (w : State)
    (r : Res (option bool)) (evs : list Event) :
  m hub w = (r, emit evs w) ->
  (let* result := m in
   exec set_isLightOn result in
   let* st := get_isLightOn in
   send_plugin_message (plugin_message st)) hub w =
  match r with
  | Ok st =>
      (Ok tt,
       mkState (config w) st
               (trace w ++ evs ++ [EvPluginMessage (plugin_message st)]))
  | Raise e => (Raise e, emit evs w)
  end.
Proof.
  intros Hrun. unfold bind at 1. rewrite Hrun.
  destruct r as [st|e]; [|done]. run. same_state.
Qed.

(** C2 (as the code has it): after [refresh_light_status] and after
    [toggle_light] the cache holds the value the operation returned,
    [None] included.  That value is the one computed from the last answer
    of the hub: [True]/[False] when it carries a state, [None] when the
    request or its parsing failed, whatever the cache held before. *)
Theorem cache_adopts_result (hub : Hub) (w : State) :
  isLightOn (snd (refresh_light_status hub w))
    = match result_of is_HA_state_on hub w with
      | Ok r => r
      | Raise _ => isLightOn w
      end /\
  isLightOn (snd (toggle_light hub w))
    = match result_of toggle_HA_state hub w with
      | Ok r => r
      | Raise _ => isLightOn w
      end /\
  (forall req out,
     last (http_log (events_of refresh_light_status hub w)) = Some (req, out) ->
     isLightOn (snd (refresh_light_status hub w)) = answer_result req out) /\
  (forall req out,
     last (http_log (events_of toggle_light hub w)) = Some (req, out) ->
     isLightOn (snd (toggle_light hub w)) = answer_result req out).
Proof.
  destruct (is_HA_state_on_summary hub w) as (rq & eq & Hq & Hlq).
  destruct (toggle_HA_state_summary hub w) as (rt & et & Ht & Hlt).
  pose proof (adopt_run is_HA_state_on hub w rq eq Hq) as Hrefresh.
  pose proof (adopt_run toggle_HA_state hub w rt et Ht) as Htoggle.
  change (refresh_light_status hub w = match rq with
            | Ok st => (Ok tt, mkState (config w) st
                 (trace w ++ eq ++ [EvPluginMessage (plugin_message st)]))
            | Raise e => (Raise e, emit eq w) end) in Hrefresh.
  change (toggle_light hub w = match rt with
            | Ok st => (Ok tt, mkState (config w) st
                 (trace w ++ et ++ [EvPluginMessage (plugin_message st)]))
            | Raise e => (Raise e, emit et w) end) in Htoggle.
  unfold events_of, result_of, new_events.
  rewrite Hrefresh, Htoggle, Hq, Ht; simpl.
  repeat split.
  - by destruct rq.
  - by destruct rt.
  - intros req out. destruct rq as [st|e]; simpl; rewrite drop_app_length.
    + rewrite http_log_app; simpl. rewrite app_nil_r. intros Hl.
      by injection (Hlq _ _ Hl).
    + intros Hl. by pose proof (Hlq _ _ Hl).
  - intros req out. destruct rt as [st|e]; simpl; rewrite drop_app_length.
    + rewrite http_log_app; simpl. rewrite app_nil_r. intros Hl.
      by injection (Hlt _ _ Hl).
    + intros Hl. by pose proof (Hlt _ _ Hl).
Qed.

Lemma cache_adopts_result_witness :
  isLightOn (snd (refresh_light_status (hub_slow "on")
                    (mkState kitchen_config (Some false) []))) = Some true /\
  isLightOn (snd (toggle_light hub_down
                    (mkState kitchen_config (Some true) []))) = None.
Proof.
  split.
  - apply (proj1 (proj2 (proj2 (cache_adopts_result (hub_slow "on")
             (mkState kitchen_config (Some false) []))))
             (states_request (CfgStr "http://hub.local")
                (CfgStr "light.kitchen") (CfgStr "secret") (CfgBool false))
             (NetResponse (Some (PyDict [("state", PyStr "on")])))).
    reflexivity.
  - apply (proj2 (proj2 (proj2 (cache_adopts_result hub_down
             (mkState kitchen_config (Some true) []))))
             (toggle_request (CfgStr "http://hub.local") "light.kitchen"
                "light" (CfgStr "secret") (CfgBool false))
             (NetRaise ConnectionError)).
    reflexivity.
Defined.

(** C2, refuted as stated: with the hub unreachable, a refresh (and a
    toggle) replaces a cached [True] by [None]. *)
Lemma failure_overwrites_cache :
  let w := mkState kitchen_config (Some true) [] in
  result_of is_HA_state_on hub_down w = Ok None /\
  isLightOn (snd (refresh_light_status hub_down w)) = None /\
  isLightOn (snd (toggle_light hub_down w)) = None /\
  isLightOn (snd (refresh_light_status hub_down w)) <> isLightOn w.
Proof.
  repeat split. discriminate.
Qed.

(** ** The HTTP handler *)

Lemma http_log_effects (tr : list Event) : http_log (effects tr) = http_log tr.
Proof.
  induction tr as [|ev tr IH]; [done|]. destruct ev; simpl; by rewrite ?IH.
Qed.

Lemma log_equiv_toggle_tail (old : option bool) (msg msg' : string) :
  log_equiv (toggle_tail old msg) (toggle_tail old msg').
Proof. unfold toggle_tail. blind. Qed.

(** Prefixing a method with log lines changes nothing that can be observed. *)
Lemma observe_after_logs {A} (m m' : M A) (hub : Hub) (w : State)
    (pre pre' : list Event) :
  log_equiv m m' -> effects pre = [] -> effects pre' = [] ->
  observe (fun h x => m h (emit pre x)) hub w
  = observe (fun h x => m' h (emit pre' x)) hub w.
Proof.
  intros Hm Hp Hp'.
  destruct (Hm hub (emit pre w) (emit pre' w))
    as (r & st & evs & evs' & Hrun & Hrun' & He).
  { repeat split; simpl. by rewrite !effects_app, Hp, Hp'. }
  unfold observe, result_of, events_of, new_events.
  rewrite Hrun, Hrun'; simpl.
  rewrite <- !app_assoc, !drop_app_length, !effects_app. by rewrite Hp, Hp', He.
Qed.

Lemma on_api_get_toggle (hub : Hub) (w : State) :
  on_api_get [("action", "toggle")] hub w =
  toggle_tail (isLightOn w) "TOGGLE: light state changed" hub
    (emit [EvLog DEBUG "API REQUEST isLightOn: {self.isLightOn}"
             [AVal (state_to_py (isLightOn w))];
           EvLog DEBUG "running API action {action}" [AVal (PyStr "toggle")]]
          w).
Proof.
  unfold on_api_get, toggle_tail. run. by rewrite emit_emit.
Qed.

Lemma on_api_get_turnOn (hub : Hub) (w : State) :
  on_api_get [("action", "turnOn")] hub w =
  let w0 :=
    emit [EvLog DEBUG "API REQUEST isLightOn: {self.isLightOn}"
            [AVal (state_to_py (isLightOn w))];
          EvLog DEBUG "running API action {action}" [AVal (PyStr "turnOn")]]
         w in
  if state_truthy (isLightOn w)
  then (Ok (jsonify_state (isLightOn w)), w0)
  else toggle_tail (isLightOn w) "TURNON: light state changed." hub w0.
Proof.
  unfold on_api_get, toggle_tail. run. rewrite emit_emit; simpl.
  destruct (isLightOn w) as [[|]|] eqn:Hl; simpl; try reflexivity.
  unfold log_if_changed, respond_state; run. rewrite Hl; simpl. by rewrite Hl.
Qed.

Lemma on_api_get_turnOff (hub : Hub) (w : State) :
  on_api_get [("action", "turnOff")] hub w =
  let w0 :=
    emit [EvLog DEBUG "API REQUEST isLightOn: {self.isLightOn}"
            [AVal (state_to_py (isLightOn w))];
          EvLog DEBUG "running API action {action}" [AVal (PyStr "turnOff")]]
         w in
  if state_truthy (isLightOn w)
  then toggle_tail (isLightOn w) "TURNOFF: light state changed." hub w0
  else (Ok (jsonify_state (isLightOn w)), w0).
Proof.
  unfold on_api_get, toggle_tail. run. rewrite emit_emit; simpl.
  destruct (isLightOn w) as [[|]|] eqn:Hl; simpl; try reflexivity;
    unfold log_if_changed, respond_state; run; rewrite Hl; simpl;
    by rewrite Hl.
Qed.

Lemma observe_ext {A} (m m' : M A) (hub : Hub) (w : State) :
  m hub w = m' hub w -> observe m hub w = observe m' hub w.
Proof.
  intros H. unfold observe, result_of, events_of. by rewrite H.
Qed.

Lemma observe_logs_only {A} (m : M A) (hub : Hub) (w : State) (a : A)
    (logs : list Event) :
  m hub w = (Ok a, emit logs w) -> effects logs = [] ->
  observe m hub w = (Ok a, isLightOn w, config w, []).
Proof.
  intros H Hl. unfold observe, result_of, events_of. rewrite H; simpl.
  by rewrite new_events_emit, Hl.
Qed.

(** An action that toggles is observed as the [toggle] action is. *)
Lemma observe_toggle_tail (hub : Hub) (w : State) (msg : string)
    (pre : list Event) :
  effects pre = [] ->
  observe (fun h x => toggle_tail (isLightOn w) msg h (emit pre x)) hub w
  = observe toggle_action hub w.
Proof.
  intros Hp.
  transitivity
    (observe
       (fun h x =>
          toggle_tail (isLightOn w) "TOGGLE: light state changed" h
            (emit [EvLog DEBUG "API REQUEST isLightOn: {self.isLightOn}"
                     [AVal (state_to_py (isLightOn w))];
                   EvLog DEBUG "running API action {action}"
                     [AVal (PyStr "toggle")]] x)) hub w).
  - apply observe_after_logs; [apply log_equiv_toggle_tail|done|done].
  - symmetry. apply observe_ext. apply on_api_get_toggle.
Qed.

(** Reads the handler's run [H] as a toggle after some log lines. *)
Ltac via_toggle_tail H :=
  match type of H with
  | _ ?hub ?w = toggle_tail _ ?msg _ (emit ?pre _) =>
      transitivity
        (observe (fun h x => toggle_tail (isLightOn w) msg h (emit pre x))
                 hub w);
      [by apply observe_ext | by apply observe_toggle_tail]
  end.

Lemma observe_turnOn (hub : Hub) (w : State) :
  observe (on_api_get [("action", "turnOn")]) hub w =
  if state_truthy (isLightOn w)
  then (Ok (jsonify_state (isLightOn w)), isLightOn w, config w, [])
  else observe toggle_action hub w.
Proof.
  pose proof (on_api_get_turnOn hub w) as H. cbv zeta in H.
  destruct (state_truthy (isLightOn w)).
  - by apply (observe_logs_only _ _ _ _ _ H eq_refl).
  - via_toggle_tail H.
Qed.

Lemma observe_turnOff (hub : Hub) (w : State) :
  observe (on_api_get [("action", "turnOff")]) hub w =
  if state_truthy (isLightOn w)
  then observe toggle_action hub w
  else (Ok (jsonify_state (isLightOn w)), isLightOn w, config w, []).
Proof.
  pose proof (on_api_get_turnOff hub w) as H. cbv zeta in H.
  destruct (state_truthy (isLightOn w)).
  - via_toggle_tail H.
  - by apply (observe_logs_only _ _ _ _ _ H eq_refl).
Qed.

(** C6 (as the code has it): [setState(desired)] is the conditional function
    that compares [desired] with the truth value of the cached state: when
    they agree it makes no network call (no effect at all) and leaves the
    state as it is, and otherwise its result, the state it leaves and its
    calls are those of the [toggle] action. *)
Theorem setState_refines_by_truth (desired : bool) (hub : Hub) (w : State) :
  observe (setState desired) hub w = setState_by_truth desired hub w /\
  http_log (events_of (setState desired) hub w)
    = if Bool.eqb (state_truthy (isLightOn w)) desired then []
      else http_log (events_of toggle_action hub w).
Proof.
  assert (H : observe (setState desired) hub w
              = setState_by_truth desired hub w).
  { unfold setState, setState_by_truth. destruct desired.
    - rewrite observe_turnOn. by destruct (state_truthy (isLightOn w)).
    - rewrite observe_turnOff. by destruct (state_truthy (isLightOn w)). }
  split; [exact H|].
  rewrite <- (http_log_effects (events_of (setState desired) hub w)).
  change (effects (events_of (setState desired) hub w))
    with (snd (observe (setState desired) hub w)).
  rewrite H. unfold setState_by_truth.
  destruct (Bool.eqb _ desired); [done|]. simpl. apply http_log_effects.
Qed.

(** C6, refuted as stated: with the cached state unknown, [setState(false)]
    does nothing, while the conditional function of the specification
    toggles, the cached [None] not being equal to [False]. *)
Lemma setState_spec_differs_on_unknown :
  let w := mkState kitchen_config None [] in
  snd (observe (setState false) (hub_prompt "on") w) = [] /\
  http_log (snd (setState_spec false (hub_prompt "on") w)) <> [] /\
  observe (setState false) (hub_prompt "on") w
    <> setState_spec false (hub_prompt "on") w.
Proof.
  split; [reflexivity|]. split.
  - vm_compute. discriminate.
  - intros H. apply (f_equal (fun o => http_log (snd o))) in H.
    vm_compute in H. discriminate.
Qed.

(** C8: a request whose [action] is none of [toggle], [getState], [turnOn],
    [turnOff] (so the parameter is present: absent, it defaults to
    [toggle]) is answered [{"error": "action not recognized"}]; the handler
    makes no network call, has no effect and leaves the cached state and
    the settings as they are. *)
Theorem unknown_action_is_rejected (hub : Hub) (w : State)
    (args : list (string * string)) :
  args_get args "action" "toggle" <> "toggle" ->
  args_get args "action" "toggle" <> "getState" ->
  args_get args "action" "toggle" <> "turnOn" ->
  args_get args "action" "toggle" <> "turnOff" ->
  observe (on_api_get args) hub w
    = (Ok (PyDict [("error", PyStr "action not recognized")]),
       isLightOn w, config w, []) /\
  http_log (events_of (on_api_get args) hub w) = [] /\
  isLightOn (snd (on_api_get args hub w)) = isLightOn w.
Proof.
  intros H1 H2 H3 H4.
  apply String.eqb_neq in H1, H2, H3, H4.
  assert (H : on_api_get args hub w =
              (Ok (jsonify_error "action not recognized"),
               emit [EvLog DEBUG "API REQUEST isLightOn: {self.isLightOn}"
                       [AVal (state_to_py (isLightOn w))];
                     EvLog DEBUG "running API action {action}"
                       [AVal (PyStr (args_get args "action" "toggle"))]] w)).
  { unfold on_api_get. run. rewrite H1, H2, H3, H4. by rewrite emit_emit. }
  split; [by apply (observe_logs_only _ _ _ _ _ H eq_refl)|].
  unfold events_of. rewrite H; simpl. by rewrite new_events_emit.
Qed.

Lemma unknown_action_is_rejected_witness :
  let w := mkState kitchen_config (Some true) [] in
  observe (on_api_get [("action", "blink")]) (hub_prompt "off") w
    = (Ok (PyDict [("error", PyStr "action not recognized")]),
       Some true, kitchen_config, []) /\
  http_log (events_of (on_api_get [("action", "blink")]) (hub_prompt "off") w)
    = [] /\
  isLightOn (snd (on_api_get [("action", "blink")] (hub_prompt "off") w))
    = Some true.
Proof.
  apply (unknown_action_is_rejected (hub_prompt "off")
           (mkState kitchen_config (Some true) []) [("action", "blink")]);
    discriminate.
Defined.

(** C3 (as the code has it): with an incomplete configuration the toggle
    makes no network call and does not sleep; [toggle_HA_state] leaves the
    cached state alone and returns [None], and its caller [toggle_light]
    stores that [None] in the cache, pushes it to the UI clients, and the
    [toggle] action answers with it. *)
Theorem disabled_toggle_yields_none (hub : Hub) (w : State) :
  unset (config w) CONFIG_ADDRESS \/ unset (config w) CONFIG_ENTITY_ID \/
  unset (config w) CONFIG_API_KEY ->
  observe toggle_HA_state hub w = (Ok None, isLightOn w, config w, []) /\
  observe toggle_light hub w
    = (Ok tt, None, config w, [EvPluginMessage (plugin_message None)]) /\
  observe toggle_action hub w
    = (Ok (jsonify_state None), None, config w,
       [EvPluginMessage (plugin_message None)]).
Proof.
  intros Hu. apply is_config_completed_false in Hu.
  pose proof (toggle_HA_state_disabled hub w Hu) as Ht.
  split; [by apply (observe_logs_only _ _ _ _ _ Ht eq_refl)|].
  assert (Hl : forall w0, config w0 = config w ->
            observe toggle_light hub w0
            = (Ok tt, None, config w,
               [EvPluginMessage (plugin_message None)])).
  { intros w0 Hw0. rewrite <- Hw0 in Hu.
    pose proof (toggle_light_disabled hub w0 Hu) as H.
    unfold observe, result_of, events_of, new_events. rewrite H; simpl.
    by rewrite drop_app_length, Hw0. }
  split; [by apply Hl|].
  unfold observe, result_of, events_of, new_events, toggle_action.
  rewrite on_api_get_toggle.
  set (pre := [EvLog DEBUG "API REQUEST isLightOn: {self.isLightOn}" _; _]).
  pose proof (toggle_light_disabled hub (emit pre w) Hu) as H.
  unfold toggle_tail, bind. rewrite H.
  unfold log_if_changed, respond_state. run.
  destruct (isLightOn w) as [[|]|]; simpl;
    rewrite <- ?app_assoc, drop_app_length; reflexivity.
Qed.

Lemma disabled_toggle_yields_none_witness :
  let w := mkState ∅ (Some true) [] in
  observe toggle_HA_state hub_down w = (Ok None, Some true, ∅, []) /\
  observe toggle_light hub_down w
    = (Ok tt, None, ∅, [EvPluginMessage (plugin_message None)]) /\
  observe toggle_action hub_down w
    = (Ok (jsonify_state None), None, ∅,
       [EvPluginMessage (plugin_message None)]).
Proof.
  apply (disabled_toggle_yields_none hub_down (mkState ∅ (Some true) [])).
  left. exact I.
Defined.

(** C3, refuted as stated: on a plugin without settings whose cache holds
    [True], a toggle makes no network call and leaves [None] in the cache,
    which is also what the caller gets. *)
Lemma disabled_toggle_changes_cache :
  let w := mkState ∅ (Some true) [] in
  http_log (events_of toggle_light hub_down w) = [] /\
  isLightOn (snd (toggle_light hub_down w)) = None /\
  isLightOn (snd (toggle_light hub_down w)) <> isLightOn w /\
  result_of toggle_action hub_down w = Ok (PyDict [("state", PyNone)]).
Proof.
  repeat split. discriminate.
Qed.

(** ** The settings *)

Lemma reload_settings_run (store : Settings) (hub : Hub) (w : State) :
  exists logs,
    effects logs = [] /\
    reload_settings store hub w =
      (Ok tt,
       mkState (loaded_config store ∪ config w) (isLightOn w)
               (trace w ++ logs)).
Proof.
  eexists [_; _; _; _]. split; cycle 1.
  - unfold reload_settings, get_settings_defaults, for_each, reload_setting,
      config_setitem.
    run. unfold emit, loaded_config; simpl. rewrite <- !app_assoc; simpl.
    by rewrite <- !insert_union_l, (left_id_L ∅ (∪)).
  - reflexivity.
Qed.

(** ** Network activity *)

Lemma methods_of_app (t1 t2 : list Event) :
  methods_of (t1 ++ t2) = methods_of t1 ++ methods_of t2.
Proof. unfold methods_of. by rewrite http_log_app, map_app. Qed.

Lemma effects_nil_methods (tr : list Event) :
  effects tr = [] -> methods_of tr = [].
Proof. intros H. unfold methods_of. by rewrite (effects_nil_http _ H). Qed.

Lemma methods_of_effects (tr : list Event) :
  methods_of (effects tr) = methods_of tr.
Proof. unfold methods_of. by rewrite http_log_effects. Qed.

Lemma sleeps_effects (tr : list Event) : sleeps (effects tr) = sleeps tr.
Proof.
  induction tr as [|ev tr IH]; [done|]. destruct ev; simpl; by rewrite ?IH.
Qed.

Lemma net_steps_app (t1 t2 : list Event) :
  net_steps (t1 ++ t2) = net_steps t1 ++ net_steps t2.
Proof.
  induction t1 as [|ev t1 IH]; [done|].
  destruct ev; simpl; by rewrite IH.
Qed.

Lemma effects_nil_net_steps (tr : list Event) :
  effects tr = [] -> net_steps tr = [].
Proof.
  induction tr as [|ev tr IH]; [done|]. destruct ev; simpl; auto; discriminate.
Qed.

(** The calls and the sleeps of a trace are those of its network steps. *)
Lemma net_steps_calls (tr : list Event) :
  methods_of tr
    = omap (fun st => match st with Call m => Some m | Pause _ => None end)
           (net_steps tr) /\
  sleeps tr
    = omap (fun st => match st with Call _ => None | Pause n => Some n end)
           (net_steps tr).
Proof.
  unfold methods_of. induction tr as [|ev tr [IH1 IH2]]; [done|].
  destruct ev; simpl; by rewrite ?IH1, ?IH2.
Qed.

(** Without a sleep the network steps are the calls. *)
Lemma net_steps_no_sleep (tr : list Event) :
  sleeps tr = [] -> net_steps tr = map Call (methods_of tr).
Proof.
  unfold methods_of. induction tr as [|ev tr IH]; [done|].
  destruct ev; simpl; try done. intros Hs. by rewrite IH.
Qed.

Lemma query_profile_call (evs : list Event) :
  query_profile evs -> call_profile evs.
Proof.
  intros [Hs Hm]. unfold call_profile. rewrite (net_steps_no_sleep _ Hs).
  destruct Hm as [-> | ->]; [by left|by right; left].
Qed.

Lemma is_HA_state_on_profile (hub : Hub) (w : State) :
  exists r evs,
    is_HA_state_on hub w = (r, emit evs w) /\ query_profile evs.
Proof.
  destruct (is_HA_state_on_cases hub w)
    as [(r & logs & Hl & Hrun)|(req & logs & Hl & Hm & Hrun)].
  - exists r, logs. split; [done|]. split.
    + by apply effects_nil_sleeps.
    + left. by apply effects_nil_methods.
  - eexists _, _. split; [exact Hrun|]. split; simpl.
    + by apply effects_nil_sleeps.
    + right. unfold methods_of; simpl.
      by rewrite (effects_nil_http _ Hl), Hm.
Qed.

Lemma toggle_HA_state_profile (hub : Hub) (w : State) :
  exists r evs,
    toggle_HA_state hub w = (r, emit evs w) /\ call_profile evs.
Proof.
  destruct (toggle_HA_state_cases hub w)
    as [(r & logs & Hl & Hrun)|(a & s & k & v & Hc & Ha & He & Hk & Hv)].
  { exists r, logs. split; [done|]. left. by apply effects_nil_net_steps. }
  destruct (state_not_reported
              (hub (effects (trace w))
                   (toggle_request a s (before_first "." s) k v))) eqn:Hn.
  - destruct (toggle_HA_state_retry hub w a k v s Hc Ha He Hk Hv Hn)
      as (logs & Hl & _ & Hrun).
    rewrite emit_emit in Hrun. eexists _, _. split; [exact Hrun|].
    right; right; right. simpl.
    rewrite net_steps_app, (effects_nil_net_steps _ Hl).
    by rewrite (effects_nil_net_steps _ (toggle_verdict_is_log _ _)).
  - destruct (toggle_HA_state_direct hub w a k v s Hc Ha He Hk Hv Hn)
      as (logs & Hl & Hrun).
    eexists _, _. split; [exact Hrun|].
    right; right; left. simpl. by rewrite (effects_nil_net_steps _ Hl).
Qed.

(** What the handler answers and leaves after adopting the result of [m]:
    [toggle_light] or [refresh_light_status], the debug line and the
    response. *)
Lemma adopt_tail_run (m : M (option bool)) (hub : Hub) (w : State)
    (r : Res (option bool)) (evs : list Event) (old : option bool)
    (msg : string) :
  m hub w = (r, emit evs w) ->
  (exec (let* result := m in
         exec set_isLightOn result in
         let* st := get_isLightOn in
         send_plugin_message (plugin_message st)) in
   exec log_if_changed old msg in
   respond_state) hub w =
  match r with
  | Ok st =>
      (Ok (jsonify_state st),
       mkState (config w) st
               (trace w ++ evs ++ EvPluginMessage (plugin_message st)
                                  :: changed_log old st msg))
  | Raise e => (Raise e, emit evs w)
  end.
Proof.
  intros Hrun. unfold bind at 1. rewrite (adopt_run m hub w r evs Hrun).
  destruct r as [st|e]; [|done].
  unfold log_if_changed, respond_state, changed_log. run.
  destruct (negb (state_eqb old st)); simpl; [|reflexivity].
  unfold emit; simpl. by rewrite <- !app_assoc.
Qed.

Lemma on_api_get_run (args : list (string * string)) (hub : Hub) (w : State) :
  let action := args_get args "action" "toggle" in
  let old := isLightOn w in
  let w0 :=
    emit [EvLog DEBUG "API REQUEST isLightOn: {self.isLightOn}"
            [AVal (state_to_py old)];
          EvLog DEBUG "running API action {action}" [AVal (PyStr action)]]
         w in
  on_api_get args hub w =
  if String.eqb action "toggle" then
    toggle_tail old "TOGGLE: light state changed" hub w0
  else if String.eqb action "getState" then
    refresh_tail old "GETSTATE: light state changed." hub w0
  else if String.eqb action "turnOn" then
    if state_truthy old
    then (Ok (jsonify_state old), w0)
    else toggle_tail old "TURNON: light state changed." hub w0
  else if String.eqb action "turnOff" then
    if state_truthy old
    then toggle_tail old "TURNOFF: light state changed." hub w0
    else (Ok (jsonify_state old), w0)
  else (Ok (jsonify_error "action not recognized"), w0).
Proof.
  intros action old w0. subst old w0.
  unfold on_api_get, toggle_tail, refresh_tail. run.
  rewrite emit_emit; simpl. fold action.
  destruct (String.eqb action "toggle"); [reflexivity|].
  destruct (String.eqb action "getState"); [reflexivity|].
  destruct (String.eqb action "turnOn").
  { destruct (isLightOn w) as [[|]|] eqn:Hl; simpl; rewrite ?Hl; simpl;
      try reflexivity.
    unfold log_if_changed, respond_state; run.
    rewrite Hl; simpl. by rewrite Hl. }
  destruct (String.eqb action "turnOff"); [|reflexivity].
  destruct (isLightOn w) as [[|]|] eqn:Hl; simpl; rewrite ?Hl; simpl;
    try reflexivity;
    unfold log_if_changed, respond_state; run;
    rewrite Hl; simpl; by rewrite Hl.
Qed.

Lemma pushes_app (t1 t2 : list Event) :
  pushes (t1 ++ t2) = pushes t1 ++ pushes t2.
Proof.
  induction t1 as [|ev t1 IH]; [done|].
  destruct ev; simpl; by rewrite IH.
Qed.

Lemma effects_nil_pushes (tr : list Event) : effects tr = [] -> pushes tr = [].
Proof.
  induction tr as [|ev tr IH]; [done|]. destruct ev; simpl; auto; discriminate.
Qed.

Lemma call_profile_silent (tr : list Event) :
  pushes tr = [] -> call_profile tr -> forall logs1 p logs2,
  effects logs1 = [] -> effects logs2 = [] ->
  call_profile (logs1 ++ tr ++ EvPluginMessage p :: logs2).
Proof.
  intros _ Hp logs1 p logs2 H1 H2. unfold call_profile in *.
  rewrite !net_steps_app. simpl.
  rewrite (effects_nil_net_steps _ H1), (effects_nil_net_steps _ H2).
  by rewrite !app_nil_r.
Qed.

Lemma call_profile_logs (tr logs : list Event) :
  effects logs = [] -> call_profile tr -> call_profile (logs ++ tr).
Proof.
  intros Hl Hp. unfold call_profile in *.
  by rewrite !net_steps_app, (effects_nil_net_steps _ Hl).
Qed.

Lemma is_HA_state_on_silent (hub : Hub) (w : State) (r : Res (option bool))
    (evs : list Event) :
  is_HA_state_on hub w = (r, emit evs w) -> pushes evs = [].
Proof.
  intros Hrun.
  destruct (is_HA_state_on_cases hub w)
    as [(r' & logs & Hl & Hrun')|(req & logs & Hl & _ & Hrun')];
    pose proof (events_of_emit _ _ _ _ _ Hrun) as <-;
    rewrite (events_of_emit _ _ _ _ _ Hrun'); simpl;
    by apply effects_nil_pushes.
Qed.

Lemma toggle_HA_state_silent (hub : Hub) (w : State) (r : Res (option bool))
    (evs : list Event) :
  toggle_HA_state hub w = (r, emit evs w) -> pushes evs = [].
Proof.
  intros Hrun. pose proof (events_of_emit _ _ _ _ _ Hrun) as <-.
  destruct (toggle_HA_state_cases hub w)
    as [(r' & logs & Hl & Hrun')|(a & s & k & v & Hc & Ha & He & Hk & Hv)].
  { rewrite (events_of_emit _ _ _ _ _ Hrun'). by apply effects_nil_pushes. }
  destruct (state_not_reported
              (hub (effects (trace w))
                   (toggle_request a s (before_first "." s) k v))) eqn:Hn.
  - destruct (toggle_HA_state_retry hub w a k v s Hc Ha He Hk Hv Hn)
      as (logs & Hl & _ & Hrun').
    rewrite emit_emit in Hrun'. rewrite (events_of_emit _ _ _ _ _ Hrun').
    simpl. rewrite pushes_app, (effects_nil_pushes _ Hl).
    by apply effects_nil_pushes, toggle_verdict_is_log.
  - destruct (toggle_HA_state_direct hub w a k v s Hc Ha He Hk Hv Hn)
      as (logs & Hl & Hrun').
    rewrite (events_of_emit _ _ _ _ _ Hrun'). simpl.
    by apply effects_nil_pushes.
Qed.

Lemma changed_log_is_log (old st : option bool) (msg : string) :
  effects (changed_log old st msg) = [].
Proof. unfold changed_log. by destruct (negb _). Qed.

(** The handler after its two debug lines [pre], for an action that adopts
    the result of [m]. *)
Lemma adopt_tail_outcome (m : M (option bool)) (hub : Hub) (w : State)
    (pre : list Event) (msg : string) (r : Res (option bool))
    (evs : list Event) :
  effects pre = [] ->
  m hub (emit pre w) = (r, emit evs (emit pre w)) ->
  call_profile evs -> pushes evs = [] ->
  exists r' st evs',
    (exec (let* result := m in
           exec set_isLightOn result in
           let* st := get_isLightOn in
           send_plugin_message (plugin_message st)) in
     exec log_if_changed (isLightOn w) msg in
     respond_state) hub (emit pre w)
      = (r', mkState (config w) st (trace w ++ evs')) /\
    handler_outcome (isLightOn w) r' st evs' /\
    (forall e, r' = Raise e -> r = Raise e).
Proof.
  intros Hpre Hm Hp Hs.
  rewrite (adopt_tail_run m hub (emit pre w) r evs (isLightOn w) msg Hm).
  destruct r as [st|e].
  - eexists _, st, (pre ++ evs ++ EvPluginMessage (plugin_message st)
                        :: changed_log (isLightOn w) st msg).
    split; [simpl; by rewrite <- app_assoc|]. split; [|discriminate].
    split; [|split].
    + apply call_profile_silent; [done|done|done|].
      apply changed_log_is_log.
    + right. rewrite !pushes_app, (effects_nil_pushes _ Hpre), Hs. simpl.
      by rewrite (effects_nil_pushes _ (changed_log_is_log _ _ _)).
    + by left.
  - eexists _, (isLightOn w), (pre ++ evs).
    split; [by rewrite emit_emit|]. split; [|by intros e' [= ->]].
    split; [by apply call_profile_logs|].
    rewrite pushes_app, (effects_nil_pushes _ Hpre), Hs. by split; [left|].
Qed.

(** Every run of the handler: its result, the state it leaves and the
    events it adds. *)
Lemma on_api_get_summary (args : list (string * string)) (hub : Hub)
    (w : State) :
  exists r st evs,
    on_api_get args hub w = (r, mkState (config w) st (trace w ++ evs)) /\
    handler_outcome (isLightOn w) r st evs.
Proof.
  pose proof (on_api_get_run args hub w) as Hrun. cbv zeta in Hrun.
  set (action := args_get args "action" "toggle") in *.
  set (pre := [EvLog DEBUG "API REQUEST isLightOn: {self.isLightOn}" _; _])
    in *.
  assert (Hpre : effects pre = []) by reflexivity.
  assert (Htoggle : forall msg, exists r st evs,
            toggle_tail (isLightOn w) msg hub (emit pre w)
              = (r, mkState (config w) st (trace w ++ evs)) /\
            handler_outcome (isLightOn w) r st evs).
  { intros msg.
    destruct (toggle_HA_state_profile hub (emit pre w)) as (r & evs & Hm & Hp).
    destruct (adopt_tail_outcome toggle_HA_state hub w pre msg r evs Hpre Hm Hp
                (toggle_HA_state_silent _ _ _ _ Hm))
      as (r' & st & evs' & H1 & H2 & _).
    by exists r', st, evs'. }
  assert (Hrefresh : forall msg, exists r st evs,
            refresh_tail (isLightOn w) msg hub (emit pre w)
              = (r, mkState (config w) st (trace w ++ evs)) /\
            handler_outcome (isLightOn w) r st evs).
  { intros msg.
    destruct (is_HA_state_on_profile hub (emit pre w)) as (r & evs & Hm & Hp).
    destruct (adopt_tail_outcome is_HA_state_on hub w pre msg r evs Hpre Hm
                (query_profile_call _ Hp) (is_HA_state_on_silent _ _ _ _ Hm))
      as (r' & st & evs' & H1 & H2 & _).
    by exists r', st, evs'. }
  assert (Hskip : forall body,
            (body = jsonify_state (isLightOn w) \/
             body = jsonify_error "action not recognized") ->
            exists r st evs,
              (Ok body, emit pre w)
                = (r, mkState (config w) st (trace w ++ evs)) /\
              handler_outcome (isLightOn w) r st evs).
  { intros body Hb. exists (Ok body), (isLightOn w), pre.
    split; [done|]. split; [by left|]. split; [by left|].
    destruct Hb as [->| ->]; [by left|by right]. }
  rewrite Hrun.
  destruct (String.eqb action "toggle"); [apply Htoggle|].
  destruct (String.eqb action "getState"); [apply Hrefresh|].
  destruct (String.eqb action "turnOn").
  { destruct (state_truthy (isLightOn w));
      [apply Hskip; by left|apply Htoggle]. }
  destruct (String.eqb action "turnOff").
  { destruct (state_truthy (isLightOn w));
      [apply Htoggle|apply Hskip; by left]. }
  apply Hskip. by right.
Qed.

Lemma events_of_run {A} (m : M A) (hub : Hub) (w : State) (r : Res A)
    (st : option bool) (evs : list Event) :
  m hub w = (r, mkState (config w) st (trace w ++ evs)) ->
  events_of m hub w = evs.
Proof.
  intros H. unfold events_of, new_events. rewrite H; simpl.
  apply drop_app_length.
Qed.

(** X1: whatever the request and the hub, the network activity of one run
    of the HTTP handler, in the order in which it happens, is one of:
    nothing; one GET; one POST; a POST, then one sleep of 1 second, then
    one GET.  It never sleeps otherwise (not before the POST, not after the
    GET) and never makes a third call. *)
Theorem handler_call_bounds (args : list (string * string)) (hub : Hub)
    (w : State) :
  call_profile (events_of (on_api_get args) hub w).
Proof.
  destruct (on_api_get_summary args hub w) as (r & st & evs & Hrun & Hp & _).
  by rewrite (events_of_run _ _ _ _ _ _ Hrun).
Qed.

(** X2: the handler never changes the settings; when it returns, its answer
    is the error body (and then nothing but log lines happened and the
    cached state is as before) or [{"state": s}] with [s] the cached state
    it leaves; it pushes at most one message to the UI clients, which
    carries that same cached state; when it raises, the cached state is as
    before and nothing was pushed. *)
Theorem handler_answers_cached_state (args : list (string * string))
    (hub : Hub) (w : State) :
  let w' := snd (on_api_get args hub w) in
  let evs := events_of (on_api_get args) hub w in
  config w' = config w /\
  (pushes evs = [] \/ pushes evs = [plugin_message (isLightOn w')]) /\
  match result_of (on_api_get args) hub w with
  | Ok body =>
      body = PyDict [("state", state_to_py (isLightOn w'))] \/
      (body = PyDict [("error", PyStr "action not recognized")] /\
       isLightOn w' = isLightOn w /\ effects evs = [])
  | Raise _ => isLightOn w' = isLightOn w /\ pushes evs = []
  end.
Proof.
  destruct (on_api_get_summary args hub w)
    as (r & st & evs & Hrun & _ & Hpush & Hres).
  cbv zeta. rewrite (events_of_run _ _ _ _ _ _ Hrun). unfold result_of.
  rewrite Hrun; simpl. by repeat split.
Qed.




(** ** Exceptions *)

Lemma is_HA_state_on_ok (hub : Hub) (w : State) :
  is_Some (config w !! CONFIG_VERIFY_CERTIFICATE) ->
  exists r, result_of is_HA_state_on hub w = Ok r.
Proof.
  intros [v Hv]. destruct (is_config_completed (config w)) eqn:Hc.
  - destruct (proj1 (is_config_completed_true _) Hc)
      as (a & e & k & Ha & _ & He & _ & Hk & _).
    destruct (is_HA_state_on_query hub w a e k v Hc Ha He Hk Hv)
      as (logs & _ & Hrun).
    eexists. by rewrite (result_of_eq _ _ _ _ _ Hrun).
  - eexists. by rewrite (result_of_eq _ _ _ _ _
                           (is_HA_state_on_disabled hub w Hc)).
Qed.

Lemma toggle_HA_state_ok (hub : Hub) (w : State) (s : string) :
  is_Some (config w !! CONFIG_VERIFY_CERTIFICATE) ->
  config w !! CONFIG_ENTITY_ID = Some (CfgStr s) ->
  exists r, result_of toggle_HA_state hub w = Ok r.
Proof.
  intros [v Hv] He. destruct (is_config_completed (config w)) eqn:Hc.
  - destruct (proj1 (is_config_completed_true _) Hc)
      as (a & e & k & Ha & _ & _ & _ & Hk & _).
    destruct (state_not_reported
                (hub (effects (trace w))
                     (toggle_request a s (before_first "." s) k v))) eqn:Hn.
    + destruct (toggle_HA_state_retry hub w a k v s Hc Ha He Hk Hv Hn)
        as (logs & _ & _ & Hrun).
      eexists. by rewrite (result_of_eq _ _ _ _ _ Hrun).
    + destruct (toggle_HA_state_direct hub w a k v s Hc Ha He Hk Hv Hn)
        as (logs & _ & Hrun).
      eexists. by rewrite (result_of_eq _ _ _ _ _ Hrun).
  - eexists. by rewrite (result_of_eq _ _ _ _ _
                           (toggle_HA_state_disabled hub w Hc)).
Qed.

(** An exception of the handler is one of [is_HA_state_on] or of
    [toggle_HA_state], run on the same settings. *)
Lemma on_api_get_raises (args : list (string * string)) (hub : Hub)
    (w : State) (e : PyExn) :
  result_of (on_api_get args) hub w = Raise e ->
  exists w0,
    config w0 = config w /\
    (result_of is_HA_state_on hub w0 = Raise e \/
     result_of toggle_HA_state hub w0 = Raise e).
Proof.
  unfold result_of at 1. rewrite on_api_get_run. cbv zeta.
  set (action := args_get args "action" "toggle").
  set (pre := [EvLog DEBUG "API REQUEST isLightOn: {self.isLightOn}" _; _]).
  assert (Hpre : effects pre = []) by reflexivity.
  assert (Htoggle : forall msg,
            fst (toggle_tail (isLightOn w) msg hub (emit pre w)) = Raise e ->
            exists w0, config w0 = config w /\
              (result_of is_HA_state_on hub w0 = Raise e \/
               result_of toggle_HA_state hub w0 = Raise e)).
  { intros msg.
    destruct (toggle_HA_state_profile hub (emit pre w)) as (r & evs & Hm & Hp).
    destruct (adopt_tail_outcome toggle_HA_state hub w pre msg r evs Hpre Hm Hp
                (toggle_HA_state_silent _ _ _ _ Hm))
      as (r' & st & evs' & H1 & _ & H3).
    unfold toggle_tail, toggle_light. rewrite H1; simpl. intros ->.
    exists (emit pre w). split; [done|]. right.
    by rewrite (result_of_eq _ _ _ _ _ Hm), (H3 e eq_refl). }
  assert (Hrefresh : forall msg,
            fst (refresh_tail (isLightOn w) msg hub (emit pre w)) = Raise e ->
            exists w0, config w0 = config w /\
              (result_of is_HA_state_on hub w0 = Raise e \/
               result_of toggle_HA_state hub w0 = Raise e)).
  { intros msg.
    destruct (is_HA_state_on_profile hub (emit pre w)) as (r & evs & Hm & Hp).
    destruct (adopt_tail_outcome is_HA_state_on hub w pre msg r evs Hpre Hm
                (query_profile_call _ Hp) (is_HA_state_on_silent _ _ _ _ Hm))
      as (r' & st & evs' & H1 & _ & H3).
    unfold refresh_tail, refresh_light_status. rewrite H1; simpl. intros ->.
    exists (emit pre w). split; [done|]. left.
    by rewrite (result_of_eq _ _ _ _ _ Hm), (H3 e eq_refl). }
  destruct (String.eqb action "toggle"); [apply Htoggle|].
  destruct (String.eqb action "getState"); [apply Hrefresh|].
  destruct (String.eqb action "turnOn").
  { destruct (state_truthy (isLightOn w)); [discriminate|apply Htoggle]. }
  destruct (String.eqb action "turnOff"); [|discriminate].
  destruct (state_truthy (isLightOn w)); [apply Htoggle|discriminate].
Qed.

(** X4: with the certificate flag in the settings dict and an [entity_id]
    that is a string, no exception leaves the handler: whatever the request
    and whatever the hub does (unreachable, not JSON, JSON of any shape), it
    answers with a body. *)
Theorem handler_never_raises (args : list (string * string)) (hub : Hub)
    (w : State) (s : string) :
  is_Some (config w !! CONFIG_VERIFY_CERTIFICATE) ->
  config w !! CONFIG_ENTITY_ID = Some (CfgStr s) ->
  exists body, result_of (on_api_get args) hub w = Ok body.
Proof.
  intros Hv He.
  destruct (result_of (on_api_get args) hub w) as [body|e] eqn:Hr;
    [by exists body|].
  destruct (on_api_get_raises args hub w e Hr) as (w0 & Hcfg & [Hq|Ht]).
  - rewrite <- Hcfg in Hv. destruct (is_HA_state_on_ok hub w0 Hv) as [r Hok].
    congruence.
  - rewrite <- Hcfg in Hv, He.
    destruct (toggle_HA_state_ok hub w0 s Hv He) as [r Hok]. congruence.
Qed.

Lemma handler_never_raises_witness :
  exists body,
    result_of (on_api_get [("action", "toggle")]) hub_down
              (mkState kitchen_config (Some true) []) = Ok body.
Proof.
  apply (handler_never_raises [("action", "toggle")] hub_down
           (mkState kitchen_config (Some true) []) "light.kitchen").
  - by eexists.
  - reflexivity.
Defined.

Lemma handler_raise_observed (m : M (option bool)) (hub : Hub) (w : State)
    (pre logs : list Event) (old : option bool) (msg : string) (e : PyExn) :
  effects pre = [] -> effects logs = [] ->
  m hub (emit pre w) = (Raise e, emit logs (emit pre w)) ->
  let tail := exec (let* result := m in
                    exec set_isLightOn result in
                    let* st := get_isLightOn in
                    send_plugin_message (plugin_message st)) in
              exec log_if_changed old msg in
              respond_state in
  forall act : M PyVal,
    act hub w = tail hub (emit pre w) ->
    observe act hub w = (Raise e, isLightOn w, config w, []).
Proof.
  intros Hpre Hlogs Hm tail act Hact.
  unfold observe, result_of, events_of. rewrite Hact. unfold tail.
  rewrite (adopt_tail_run m hub (emit pre w) _ _ old msg Hm).
  rewrite emit_emit; simpl. rewrite new_events_emit.
  by rewrite effects_app, Hpre, Hlogs.
Qed.

(** X5: the two exceptions the handler lets through.  With a complete
    configuration whose [entity_id] is truthy but not a string, [toggle]
    raises [AttributeError]; with a complete configuration whose dict lacks
    the certificate flag, [getState] and [toggle] raise [KeyError].  In both
    cases no network call is made, nothing is pushed to the UI clients and
    the cached state is kept. *)
Theorem handler_uncaught_exceptions (hub : Hub) (w : State) :
  is_config_completed (config w) = true ->
  ((exists e, config w !! CONFIG_ENTITY_ID = Some e /\
              forall s, e <> CfgStr s) ->
   observe toggle_action hub w
     = (Raise AttributeError, isLightOn w, config w, [])) /\
  (config w !! CONFIG_VERIFY_CERTIFICATE = None ->
   observe get_state_action hub w
     = (Raise KeyError, isLightOn w, config w, []) /\
   ((exists s, config w !! CONFIG_ENTITY_ID = Some (CfgStr s)) ->
    observe toggle_action hub w
      = (Raise KeyError, isLightOn w, config w, []))).
Proof.
  intros Hc.
  pose proof (on_api_get_run [("action", "toggle")] hub w) as Ht.
  pose proof (on_api_get_run [("action", "getState")] hub w) as Hg.
  cbv zeta in Ht, Hg. simpl in Ht, Hg.
  split; [|split].
  - intros (e & He & Hs).
    eapply (handler_raise_observed toggle_HA_state hub w); cycle 2;
      [by apply (toggle_HA_state_no_split hub _ e)|exact Ht|done|done].
  - eapply (handler_raise_observed is_HA_state_on hub w); cycle 2;
      [by apply is_HA_state_on_no_flag|exact Hg|done|done].
  - intros (s & He).
    eapply (handler_raise_observed toggle_HA_state hub w); cycle 2;
      [by apply (toggle_HA_state_no_flag hub _ s)|exact Ht|done|done].
Qed.

Lemma handler_uncaught_exceptions_witness :
  let w := mkState (<[CONFIG_ENTITY_ID := CfgBool true]> kitchen_config)
                   (Some true) [] in
  observe toggle_action (hub_prompt "off") w
    = (Raise AttributeError, Some true, config w, []).
Proof.
  destruct (handler_uncaught_exceptions (hub_prompt "off")
              (mkState (<[CONFIG_ENTITY_ID := CfgBool true]> kitchen_config)
                       (Some true) [])) as [H _].
  - vm_compute. reflexivity.
  - apply H. exists (CfgBool true). split; [reflexivity|discriminate].
Defined.

(** ** More on the toggle *)

(** X6: a toggle whose POST raises, is answered by something that is not
    JSON, by JSON of which [[0]['state']] fails otherwise than by an index
    or key error, or by an array whose first entry has a [state], makes that
    one network call only and does not sleep; its result is the parsed
    state in the last case and [None] in the others. *)
Theorem toggle_without_requery (hub : Hub) (w : State) (req : Request)
    (out : Outcome) :
  head (http_log (events_of toggle_HA_state hub w)) = Some (req, out) ->
  state_not_reported out = false ->
  result_of toggle_HA_state hub w
    = Ok (match out with
          | NetRaise _ => None
          | NetResponse body =>
              match toggled_status body with
              | Ok status => Some (_parse_status status)
              | Raise _ => None
              end
          end) /\
  http_log (events_of toggle_HA_state hub w) = [(req, out)] /\
  sleeps (events_of toggle_HA_state hub w) = [].
Proof.
  intros Hhd Hn.
  destruct (toggle_HA_state_cases hub w)
    as [(r & logs & Hl & Hrun)|(a & s & k & v & Hc & Ha & He & Hk & Hv)].
  { rewrite (events_of_emit _ _ _ _ _ Hrun), (effects_nil_http _ Hl) in Hhd.
    discriminate. }
  rewrite (toggle_HA_state_first_call hub w a k v s Hc Ha He Hk Hv) in Hhd.
  injection Hhd as Hreq Hout. rewrite <- Hout in Hn.
  destruct (toggle_HA_state_direct hub w a k v s Hc Ha He Hk Hv Hn)
    as (logs & Hl & Hrun).
  rewrite Hout, Hreq in Hrun.
  rewrite (events_of_emit _ _ _ _ _ Hrun), (result_of_eq _ _ _ _ _ Hrun).
  simpl. by rewrite (effects_nil_http _ Hl), (effects_nil_sleeps _ Hl).
Qed.

Lemma toggle_without_requery_witness :
  result_of toggle_HA_state (hub_prompt "off")
            (mkState kitchen_config (Some true) []) = Ok (Some false) /\
  length (http_log (events_of toggle_HA_state (hub_prompt "off")
                      (mkState kitchen_config (Some true) []))) = 1%nat /\
  sleeps (events_of toggle_HA_state (hub_prompt "off")
            (mkState kitchen_config (Some true) [])) = [].
Proof.
  destruct (toggle_without_requery (hub_prompt "off")
              (mkState kitchen_config (Some true) [])
              (toggle_request (CfgStr "http://hub.local") "light.kitchen"
                 "light" (CfgStr "secret") (CfgBool false))
              (NetResponse (Some (PyList [PyDict [("state", PyStr "off")]]))))
    as (Hr & Hh & Hs).
  - reflexivity.
  - reflexivity.
  - split; [exact Hr|]. split; [by rewrite Hh|exact Hs].
Defined.

Lemma last_app_singleton {A} (l : list A) (x : A) : last (l ++ [x]) = Some x.
Proof. induction l as [|y [|z l] IH]; try done. Qed.

(** X7: a toggle that gets past the configuration check and returns [r]
    ends with one log line that compares [r] with the cached state: INFO
    "light switched ON/OFF" when they differ, WARNING "cannot toggle light"
    when they are equal.  So a failed toggle ([r = None]) is logged as
    "light switched OFF" unless the cached state was already [None]. *)
Theorem toggle_logs_verdict (hub : Hub) (w : State) (r : option bool) :
  is_config_completed (config w) = true ->
  result_of toggle_HA_state hub w = Ok r ->
  last (events_of toggle_HA_state hub w)
    = Some (if negb (state_eqb r (isLightOn w))
            then EvLog INFO "light switched {}"
                   [AVal (PyStr (if state_truthy r then "ON" else "OFF"))]
            else EvLog WARNING "cannot toggle light" []) /\
  (r = None -> isLightOn w <> None ->
   last (events_of toggle_HA_state hub w)
     = Some (EvLog INFO "light switched {}" [AVal (PyStr "OFF")])).
Proof.
  intros Hc Hr.
  assert (Hlast : last (events_of toggle_HA_state hub w)
                  = Some (toggle_verdict r (isLightOn w))).
  { destruct (proj1 (is_config_completed_true _) Hc)
      as (a & e & k & Ha & _ & He & _ & Hk & _).
    destruct (config w !! CONFIG_VERIFY_CERTIFICATE) as [v|] eqn:Hv; cycle 1.
    { destruct e as [s| |].
      - rewrite (result_of_eq _ _ _ _ _
                   (toggle_HA_state_no_flag hub w s Hc He Hv)) in Hr.
        discriminate.
      - rewrite (result_of_eq _ _ _ _ _
                   (toggle_HA_state_no_split hub w _ Hc He
                      ltac:(discriminate))) in Hr.
        discriminate.
      - rewrite (result_of_eq _ _ _ _ _
                   (toggle_HA_state_no_split hub w _ Hc He
                      ltac:(discriminate))) in Hr.
        discriminate. }
    destruct e as [s| |]; cycle 1.
    { rewrite (result_of_eq _ _ _ _ _
                 (toggle_HA_state_no_split hub w _ Hc He
                    ltac:(discriminate))) in Hr.
      discriminate. }
    { rewrite (result_of_eq _ _ _ _ _
                 (toggle_HA_state_no_split hub w _ Hc He
                    ltac:(discriminate))) in Hr.
      discriminate. }
    pose proof (toggle_HA_state_post hub w a k v s Hc Ha He Hk Hv) as Hpost.
    cbv zeta in Hpost.
    destruct (hub (effects (trace w))
                  (toggle_request a s (before_first "." s) k v))
      as [err|body].
    - rewrite emit_emit in Hpost.
      rewrite (result_of_eq _ _ _ _ _ Hpost) in Hr. injection Hr as <-.
      rewrite (events_of_emit _ _ _ _ _ Hpost).
      by destruct (is_unreachable err).
    - destruct (toggled_status body) as [status|err].
      + rewrite emit_emit in Hpost.
        rewrite (result_of_eq _ _ _ _ _ Hpost) in Hr. injection Hr as <-.
        by rewrite (events_of_emit _ _ _ _ _ Hpost).
      + destruct (is_index_or_key err).
        * match type of Hpost with
          | context [is_HA_state_on hub ?w1] =>
              destruct (is_HA_state_on_profile hub w1)
                as (rq & evs & Hq & _); rewrite Hq in Hpost
          end.
          destruct rq as [rq|exn];
            rewrite (result_of_eq _ _ _ _ _ Hpost) in Hr; [|discriminate].
          injection Hr as <-. rewrite !emit_emit in Hpost.
          rewrite (events_of_emit _ _ _ _ _ Hpost).
          rewrite !app_assoc. apply last_app_singleton.
        * rewrite emit_emit in Hpost.
          rewrite (result_of_eq _ _ _ _ _ Hpost) in Hr. injection Hr as <-.
          by rewrite (events_of_emit _ _ _ _ _ Hpost). }
  split; [exact Hlast|].
  intros -> Hold. rewrite Hlast. unfold toggle_verdict.
  by destruct (isLightOn w) as [[|]|].
Qed.

Lemma toggle_logs_verdict_witness :
  last (events_of toggle_HA_state hub_down
          (mkState kitchen_config (Some true) []))
    = Some (EvLog INFO "light switched {}" [AVal (PyStr "OFF")]).
Proof.
  apply (proj2 (toggle_logs_verdict hub_down
                  (mkState kitchen_config (Some true) []) None
                  ltac:(reflexivity) ltac:(reflexivity)));
    [reflexivity|discriminate].
Defined.

Lemma before_first_absent (sep : ascii) (s : string) :
  ~ In sep (list_ascii_of_string s) -> before_first sep s = s.
Proof.
  induction s as [|c s IH]; [done|]. simpl. intros Hnot.
  destruct (Ascii.eqb_spec c sep) as [->|Hne]; [by destruct Hnot; left|].
  rewrite IH; [done|]. intros Hin. apply Hnot. by right.
Qed.

(** X8: an [entity_id] without a dot is its own domain: the toggle posts to
    [{address}/api/services/{entity_id}/toggle]. *)
Theorem toggle_entity_without_dot (hub : Hub) (w : State) (a k v : CfgVal)
    (entity : string) :
  is_config_completed (config w) = true ->
  config w !! CONFIG_ADDRESS = Some a ->
  config w !! CONFIG_ENTITY_ID = Some (CfgStr entity) ->
  config w !! CONFIG_API_KEY = Some k ->
  config w !! CONFIG_VERIFY_CERTIFICATE = Some v ->
  ~ In "."%char (list_ascii_of_string entity) ->
  exists req out,
    head (http_log (events_of toggle_HA_state hub w)) = Some (req, out) /\
    method req = POST /\
    url req = py_str a +:+ "/api/services/" +:+ entity +:+ "/toggle" /\
    json req = Some (PyDict [("entity_id", PyStr entity)]).
Proof.
  intros Hc Ha He Hk Hv Hdot.
  pose proof (toggle_HA_state_first_call hub w a k v _ Hc Ha He Hk Hv) as H.
  cbv zeta in H. eexists _, _. split; [exact H|]. split; [done|].
  unfold toggle_request; cbn [url json].
  by rewrite (before_first_absent _ _ Hdot).
Qed.

Lemma toggle_entity_without_dot_witness :
  exists req out,
    head (http_log (events_of toggle_HA_state hub_down
            (mkState (<[CONFIG_ENTITY_ID := CfgStr "lamp"]> kitchen_config)
                     None [])))
      = Some (req, out) /\
    method req = POST /\
    url req = "http://hub.local/api/services/lamp/toggle" /\
    json req = Some (PyDict [("entity_id", PyStr "lamp")]).
Proof.
  apply (toggle_entity_without_dot hub_down
           (mkState (<[CONFIG_ENTITY_ID := CfgStr "lamp"]> kitchen_config)
                    None [])
           (CfgStr "http://hub.local") (CfgStr "secret") (CfgBool false)
           "lamp").
  - vm_compute. reflexivity.
  - vm_compute. reflexivity.
  - vm_compute. reflexivity.
  - vm_compute. reflexivity.
  - vm_compute. reflexivity.
  - simpl. intros [H|[H|[H|[H|[]]]]]; discriminate.
Defined.

(** ** Refreshing *)

Lemma query_profile_silent (tr logs1 logs2 : list Event) (p : PyVal) :
  query_profile tr -> effects logs1 = [] -> effects logs2 = [] ->
  query_profile (logs1 ++ tr ++ EvPluginMessage p :: logs2).
Proof.
  intros [Hs Hm] H1 H2. unfold query_profile.
  rewrite !methods_of_app, !sleeps_app. simpl.
  rewrite (effects_nil_methods _ H1), (effects_nil_sleeps _ H1), Hs.
  change (methods_of (EvPluginMessage p :: logs2)) with (methods_of logs2).
  rewrite (effects_nil_methods _ H2), (effects_nil_sleeps _ H2).
  by rewrite !app_nil_r.
Qed.

Lemma query_profile_logs (tr logs : list Event) :
  query_profile tr -> effects logs = [] -> query_profile (logs ++ tr).
Proof.
  intros [Hs Hm] Hl. unfold query_profile.
  rewrite !methods_of_app, !sleeps_app.
  by rewrite (effects_nil_methods _ Hl), (effects_nil_sleeps _ Hl).
Qed.

(** The events of a refresh that follows the log lines [pre]. *)
Lemma refresh_after_logs (hub : Hub) (w : State) (pre : list Event) :
  effects pre = [] ->
  query_profile (new_events w (snd (refresh_light_status hub (emit pre w)))).
Proof.
  intros Hpre.
  destruct (is_HA_state_on_profile hub (emit pre w)) as (r & evs & Hq & Hp).
  pose proof (adopt_run is_HA_state_on hub (emit pre w) r evs Hq) as Hrun.
  change (refresh_light_status hub (emit pre w) = match r with
            | Ok st => (Ok tt, mkState (config (emit pre w)) st
                 (trace (emit pre w) ++ evs
                  ++ [EvPluginMessage (plugin_message st)]))
            | Raise e => (Raise e, emit evs (emit pre w)) end) in Hrun.
  rewrite Hrun. unfold new_events.
  destruct r as [st|e]; simpl; rewrite <- app_assoc, drop_app_length.
  - by apply query_profile_silent.
  - by apply query_profile_logs.
Qed.

(** X9: refreshing never toggles.  [refresh_light_status], [on_after_startup],
    [on_event] (for every event) and the [getState] action make no POST and
    never sleep: their only network call, if any, is one GET. *)
Theorem refresh_never_posts (hub : Hub) (w : State)
    (client_opened event : string) :
  query_profile (events_of refresh_light_status hub w) /\
  query_profile (events_of on_after_startup hub w) /\
  query_profile (events_of (on_event client_opened event) hub w) /\
  query_profile (events_of get_state_action hub w).
Proof.
  assert (Hrefresh : query_profile (events_of refresh_light_status hub w)).
  { pose proof (refresh_after_logs hub w [] eq_refl) as H.
    unfold events_of.
    replace (emit [] w) with w in H; [done|].
    destruct w; unfold emit; simpl. by rewrite app_nil_r. }
  split; [exact Hrefresh|]. split; [|split].
  - exact (refresh_after_logs hub w
             [EvLog INFO "OctoLightHA started, listening for GET requests" []]
             eq_refl).
  - unfold on_event. destruct (String.eqb event client_opened);
      [exact Hrefresh|].
    unfold events_of, new_events; simpl. rewrite drop_all. by split; [|left].
  - unfold events_of, get_state_action. rewrite on_api_get_run. cbv zeta.
    simpl String.eqb. cbv iota.
    set (pre := [EvLog DEBUG "API REQUEST isLightOn: {self.isLightOn}" _; _]).
    assert (Hpre : effects pre = []) by reflexivity.
    destruct (is_HA_state_on_profile hub (emit pre w)) as (r & evs & Hq & Hp).
    unfold refresh_tail, refresh_light_status.
    rewrite (adopt_tail_run is_HA_state_on hub (emit pre w) r evs
               (isLightOn w) _ Hq).
    unfold new_events.
    destruct r as [st|e]; simpl; rewrite <- app_assoc, drop_app_length.
    + apply query_profile_silent; [done|done|apply changed_log_is_log].
    + by apply query_profile_logs.
Qed.

(** ** Loading the settings *)

Lemma loaded_config_lookup (store : Settings) :
  loaded_config store !! CONFIG_ADDRESS
    = Some (settings_get store CONFIG_ADDRESS) /\
  loaded_config store !! CONFIG_API_KEY
    = Some (settings_get store CONFIG_API_KEY) /\
  loaded_config store !! CONFIG_ENTITY_ID
    = Some (settings_get store CONFIG_ENTITY_ID) /\
  loaded_config store !! CONFIG_VERIFY_CERTIFICATE
    = Some (settings_get_boolean store CONFIG_VERIFY_CERTIFICATE) /\
  (forall k, k <> CONFIG_ADDRESS -> k <> CONFIG_API_KEY ->
             k <> CONFIG_ENTITY_ID -> k <> CONFIG_VERIFY_CERTIFICATE ->
             loaded_config store !! k = None).
Proof.
  unfold loaded_config. repeat split; try by simplify_map_eq.
  intros k H1 H2 H3 H4. by rewrite !lookup_insert_ne.
Qed.

(** X10: [reload_settings] copies the four settings from the store into the
    dict (the three strings with [get], the flag with [get_boolean]), keeps
    every other key of the dict and the cached state, and does nothing but
    log; afterwards the configuration is complete exactly when address,
    entity id and API key are all truthy in the store. *)
Theorem reload_settings_loads (store : Settings) (hub : Hub) (w : State) :
  let w' := snd (reload_settings store hub w) in
  result_of (reload_settings store) hub w = Ok tt /\
  config w' !! CONFIG_ADDRESS = Some (settings_get store CONFIG_ADDRESS) /\
  config w' !! CONFIG_API_KEY = Some (settings_get store CONFIG_API_KEY) /\
  config w' !! CONFIG_ENTITY_ID = Some (settings_get store CONFIG_ENTITY_ID) /\
  config w' !! CONFIG_VERIFY_CERTIFICATE
    = Some (settings_get_boolean store CONFIG_VERIFY_CERTIFICATE) /\
  (forall k, k <> CONFIG_ADDRESS -> k <> CONFIG_API_KEY ->
             k <> CONFIG_ENTITY_ID -> k <> CONFIG_VERIFY_CERTIFICATE ->
             config w' !! k = config w !! k) /\
  isLightOn w' = isLightOn w /\
  effects (events_of (reload_settings store) hub w) = [] /\
  is_config_completed (config w')
    = truthy (settings_get store CONFIG_ADDRESS)
      && truthy (settings_get store CONFIG_ENTITY_ID)
      && truthy (settings_get store CONFIG_API_KEY).
Proof.
  destruct (reload_settings_run store hub w) as (logs & Hl & Hrun).
  destruct (loaded_config_lookup store) as (Ha & Hk & He & Hv & Ho).
  cbv zeta. unfold result_of, events_of, new_events. rewrite Hrun; simpl.
  assert (Hla : (loaded_config store ∪ config w) !! CONFIG_ADDRESS
                = Some (settings_get store CONFIG_ADDRESS))
    by (by apply lookup_union_Some_l).
  assert (Hlk : (loaded_config store ∪ config w) !! CONFIG_API_KEY
                = Some (settings_get store CONFIG_API_KEY))
    by (by apply lookup_union_Some_l).
  assert (Hle : (loaded_config store ∪ config w) !! CONFIG_ENTITY_ID
                = Some (settings_get store CONFIG_ENTITY_ID))
    by (by apply lookup_union_Some_l).
  repeat split; try done.
  - by apply lookup_union_Some_l.
  - intros k H1 H2 H3 H4. by rewrite lookup_union_r by by apply Ho.
  - by rewrite drop_app_length.
  - unfold is_config_completed, cfg_getitem. rewrite Hla; simpl.
    destruct (truthy (settings_get store CONFIG_ADDRESS)) eqn:Ta; simpl;
      [|done].
    rewrite Hle; simpl.
    destruct (truthy (settings_get store CONFIG_ENTITY_ID)) eqn:Te; simpl;
      [|done].
    by rewrite Hlk.
Qed.

Lemma reload_settings_loads_witness :
  let store := mkSettings (fun _ => CfgStr "x.y") (fun _ => CfgBool true) in
  let w := mkState {["theme" := CfgStr "dark"]} (Some true) [] in
  config (snd (reload_settings store hub_down w)) !! "theme"
    = config w !! "theme".
Proof.
  apply (proj1 (proj2 (proj2 (proj2 (proj2 (proj2
           (reload_settings_loads
              (mkSettings (fun _ => CfgStr "x.y") (fun _ => CfgBool true))
              hub_down
              (mkState {["theme" := CfgStr "dark"]} (Some true) [])))))))
           "theme");
    discriminate.
Defined.

(** X11: once [reload_settings] has run on a store whose entity id is a
    string, no exception leaves the handler, whatever the request and the
    hub. *)
Theorem loaded_handler_never_raises (store : Settings) (s : string)
    (hub0 : Hub) (w0 : State) (args : list (string * string)) (hub : Hub) :
  settings_get store CONFIG_ENTITY_ID = CfgStr s ->
  exists body,
    result_of (on_api_get args) hub (snd (reload_settings store hub0 w0))
      = Ok body.
Proof.
  intros Hs.
  destruct (reload_settings_run store hub0 w0) as (logs & _ & Hrun).
  destruct (loaded_config_lookup store) as (_ & _ & He & Hv & _).
  rewrite Hrun; simpl. set (w := mkState _ _ _).
  assert (Hwv : is_Some (config w !! CONFIG_VERIFY_CERTIFICATE)).
  { eexists. by apply lookup_union_Some_l. }
  assert (Hwe : config w !! CONFIG_ENTITY_ID = Some (CfgStr s)).
  { rewrite <- Hs. by apply lookup_union_Some_l. }
  destruct (result_of (on_api_get args) hub w) as [body|e] eqn:Hr;
    [by exists body|].
  destruct (on_api_get_raises args hub w e Hr) as (w1 & Hcfg & [Hq|Ht]).
  - rewrite <- Hcfg in Hwv. destruct (is_HA_state_on_ok hub w1 Hwv) as [r Hok].
    congruence.
  - rewrite <- Hcfg in Hwv, Hwe.
    destruct (toggle_HA_state_ok hub w1 s Hwv Hwe) as [r Hok]. congruence.
Qed.

Lemma loaded_handler_never_raises_witness :
  exists body,
    result_of (on_api_get [("action", "turnOn")]) (hub_slow "on")
      (snd (reload_settings
              (mkSettings (fun _ => CfgStr "x.y") (fun _ => CfgNone))
              hub_down init_state))
      = Ok body.
Proof.
  apply (loaded_handler_never_raises
           (mkSettings (fun _ => CfgStr "x.y") (fun _ => CfgNone)) "x.y").
  reflexivity.
Defined.

(** ** Trailing slashes *)

Lemma append_cons (c : ascii) (p t : string) :
  String c p +:+ t = String c (p +:+ t).
Proof. reflexivity. Qed.

Lemma append_empty (p : string) : p +:+ EmptyString = p.
Proof. induction p as [|a p IH]; [done|]. by rewrite append_cons, IH. Qed.

Lemma skip_slashes_split (s : string) :
  exists n, s = slashes n +:+ skip_slashes s.
Proof.
  induction s as [|c s [n IH]]; [by exists O|]. simpl.
  destruct (Ascii.eqb_spec c slash) as [->|Hne].
  - exists (S n). simpl. by rewrite append_cons, <- IH.
  - by exists O.
Qed.

Lemma skip_slashes_run (n : nat) (t : string) :
  at_dollar t = true -> skip_slashes (slashes n +:+ t) = t.
Proof.
  intros Ht. induction n as [|n IH].
  - destruct t as [|c [|d t]]; try done. simpl in *.
    destruct (Ascii.eqb_spec c slash) as [->|Hne]; [discriminate|done].
  - simpl slashes. rewrite append_cons. simpl. exact IH.
Qed.

Lemma at_dollar_cases (t : string) :
  at_dollar t = true -> t = EmptyString \/ t = String newline EmptyString.
Proof.
  destruct t as [|c [|d t]]; simpl; try done; [by left|].
  destruct (Ascii.eqb_spec c newline) as [->|]; [by right|done].
Qed.

Lemma ends_with_cons (c a : ascii) (p : string) :
  p <> EmptyString -> ends_with c (String a p) = ends_with c p.
Proof. by destruct p. Qed.

(** The shape of [sub_trailing_slashes]: the string is [p], a run of
    slashes and [t], where [t] is empty or the final newline; the run is
    what is deleted. *)
Lemma sub_trailing_slashes_split (s : string) :
  exists p n t,
    at_dollar t = true /\
    s = p +:+ slashes n +:+ t /\
    sub_trailing_slashes s = p +:+ t /\
    ends_with slash p = false.
Proof.
  induction s as [|c s (p & n & t & Ht & Hs & Hsub & Hp)].
  { by exists EmptyString, O, EmptyString. }
  simpl. destruct (Ascii.eqb_spec c slash) as [->|Hne]; simpl.
  - destruct (at_dollar (skip_slashes s)) eqn:Hd.
    + destruct (skip_slashes_split s) as [m Hm].
      exists EmptyString, (S m), (skip_slashes s).
      repeat split; try done.
      change (String slash s = String slash (slashes m +:+ skip_slashes s)).
      by rewrite <- Hm.
    + exists (String slash p), n, t. rewrite !append_cons, <- Hs, Hsub.
      repeat split; try done.
      destruct p as [|a p]; [|by rewrite ends_with_cons].
      change (s = slashes n +:+ t) in Hs.
      rewrite Hs, (skip_slashes_run n t Ht) in Hd. congruence.
  - exists (String c p), n, t. rewrite !append_cons, <- Hs, Hsub.
    repeat split; try done.
    destruct p as [|a p]; [|by rewrite ends_with_cons].
    simpl. by destruct (Ascii.eqb_spec c slash).
Qed.

Lemma ends_with_app_newline (c : ascii) (p : string) :
  ends_with c (p +:+ String newline EmptyString) = Ascii.eqb newline c.
Proof.
  induction p as [|a p IH]; [done|].
  rewrite append_cons, ends_with_cons; [done|]. by destruct p.
Qed.

Lemma sub_trailing_slashes_end (s : string) :
  ends_with slash (sub_trailing_slashes s) = false.
Proof.
  destruct (sub_trailing_slashes_split s) as (p & n & t & Ht & Hs & Hsub & Hp).
  rewrite Hsub. destruct (at_dollar_cases t Ht) as [->| ->].
  - by rewrite append_empty.
  - by rewrite ends_with_app_newline.
Qed.

Lemma ends_with_slashes (n : nat) : ends_with slash (slashes (S n)) = true.
Proof.
  induction n as [|n IH]; [done|].
  change (slashes (S (S n))) with (String slash (slashes (S n))).
  by rewrite ends_with_cons.
Qed.

Lemma in_append_newline (p q : string) :
  In newline (list_ascii_of_string (p +:+ String newline q)).
Proof.
  induction p as [|a p IH]; [by left|]. rewrite append_cons. by right.
Qed.

Lemma ends_with_append_slashes (p : string) (n : nat) :
  ends_with slash (p +:+ slashes (S n)) = true.
Proof.
  induction p as [|a p IH]; [apply ends_with_slashes|].
  rewrite append_cons, ends_with_cons; [done|]. by destruct p.
Qed.

(** An address without newline and without trailing slash is kept. *)
Lemma sub_trailing_slashes_fixed (p : string) :
  ~ In newline (list_ascii_of_string p) -> ends_with slash p = false ->
  sub_trailing_slashes p = p.
Proof.
  induction p as [|c r IH]; [done|]. intros Hnl Hend. simpl.
  destruct (Ascii.eqb_spec c slash) as [->|Hne]; simpl.
  - destruct (at_dollar (skip_slashes r)) eqn:Hd.
    + destruct (skip_slashes_split r) as [m Hm].
      destruct (at_dollar_cases _ Hd) as [He|He]; rewrite He in Hm.
      * rewrite append_empty in Hm. rewrite Hm in Hend.
        change (String slash (slashes m)) with (slashes (S m)) in Hend.
        by rewrite ends_with_slashes in Hend.
      * destruct Hnl. right. rewrite Hm. apply in_append_newline.
    + f_equal. destruct r as [|a r]; [done|]. apply IH.
      * intros Hin. apply Hnl. by right.
      * by rewrite ends_with_cons in Hend.
  - f_equal. destruct r as [|a r]; [done|]. apply IH.
    + intros Hin. apply Hnl. by right.
    + by rewrite ends_with_cons in Hend.
Qed.

(** ** Saving the settings *)

(** X14: [on_settings_save] hands the host a dict in which the address has
    lost its trailing slashes and every other entry is as the caller gave
    it, then reloads the settings from the store the host leaves; the
    cached state is kept.  An address that is not a string makes it raise
    [TypeError] before anything is stored or reloaded. *)
Theorem on_settings_save_normalises
    (framework_save : gmap string CfgVal -> Settings -> Settings)
    (data : gmap string CfgVal) (store : Settings) (hub : Hub) (w : State) :
  let out := on_settings_save framework_save data store hub w in
  let data' := fst (fst (snd out)) in
  let store' := snd (fst (snd out)) in
  let w' := snd (snd out) in
  match data !! CONFIG_ADDRESS with
  | Some (CfgStr s) =>
      fst out = Ok tt /\
      data' = <[CONFIG_ADDRESS := CfgStr (sub_trailing_slashes s)]> data /\
      ends_with slash (sub_trailing_slashes s) = false /\
      (forall k, k <> CONFIG_ADDRESS -> data' !! k = data !! k) /\
      store' = framework_save data' store /\
      config w' = loaded_config store' ∪ config w /\
      isLightOn w' = isLightOn w
  | Some _ => out = (Raise TypeError, (data, store, w))
  | None =>
      fst out = Ok tt /\ data' = data /\
      store' = framework_save data store /\
      config w' = loaded_config store' ∪ config w /\
      isLightOn w' = isLightOn w
  end.
Proof.
  cbv zeta. unfold on_settings_save.
  destruct (data !! CONFIG_ADDRESS) as [[s|b|]|] eqn:Ha;
    unfold re_sub_trailing_slashes, res_bind; try done.
  - destruct (reload_settings_run
                (framework_save
                   (<[CONFIG_ADDRESS := CfgStr (sub_trailing_slashes s)]> data)
                   store) hub w) as (logs & _ & Hrun).
    rewrite Hrun; simpl. repeat split; try done.
    + apply sub_trailing_slashes_end.
    + intros k Hk. by rewrite lookup_insert_ne.
  - destruct (reload_settings_run (framework_save data store) hub w)
      as (logs & _ & Hrun).
    rewrite Hrun; simpl. by repeat split.
Qed.

(** X15: with a host store that gives back what was saved, an address saved
    with trailing slashes is read back without them, and the state query of
    the reloaded (complete) configuration goes to
    [{address}/api/states/{entity_id}] with that address. *)
Theorem saved_address_is_normalised
    (framework_save : gmap string CfgVal -> Settings -> Settings)
    (data : gmap string CfgVal) (store : Settings) (hub hub' : Hub)
    (w : State) (s : string) :
  (forall d st k v, d !! k = Some v -> settings_get (framework_save d st) k = v) ->
  data !! CONFIG_ADDRESS = Some (CfgStr s) ->
  let out := on_settings_save framework_save data store hub w in
  let store' := snd (fst (snd out)) in
  let w' := snd (snd out) in
  config w' !! CONFIG_ADDRESS = Some (CfgStr (sub_trailing_slashes s)) /\
  (is_config_completed (config w') = true ->
   exists req out',
     head (http_log (events_of is_HA_state_on hub' w')) = Some (req, out') /\
     method req = GET /\
     url req = sub_trailing_slashes s +:+ "/api/states/"
               +:+ py_str (settings_get store' CONFIG_ENTITY_ID)).
Proof.
  intros Hkeeps Ha. cbv zeta. unfold on_settings_save. rewrite Ha.
  unfold re_sub_trailing_slashes, res_bind.
  set (data' := <[CONFIG_ADDRESS := CfgStr (sub_trailing_slashes s)]> data).
  destruct (reload_settings_run (framework_save data' store) hub w)
    as (logs & _ & Hrun).
  rewrite Hrun; simpl.
  destruct (loaded_config_lookup (framework_save data' store))
    as (Hla & Hlk & Hle & Hlv & _).
  assert (Haddr : settings_get (framework_save data' store) CONFIG_ADDRESS
                  = CfgStr (sub_trailing_slashes s)).
  { apply Hkeeps. unfold data'. by simplify_map_eq. }
  set (w' := mkState _ _ _).
  assert (Hwa : config w' !! CONFIG_ADDRESS
                = Some (CfgStr (sub_trailing_slashes s))).
  { rewrite <- Haddr. by apply lookup_union_Some_l. }
  split; [exact Hwa|]. intros Hc.
  destruct (is_HA_state_on_query hub' w' _ _ _ _ Hc Hwa
              ltac:(by apply lookup_union_Some_l)
              ltac:(by apply lookup_union_Some_l)
              ltac:(by apply lookup_union_Some_l))
    as (logs' & Hl & Hq).
  rewrite (events_of_emit _ _ _ _ _ Hq). by eexists _, _.
Qed.

Lemma saved_address_is_normalised_witness :
  let out := on_settings_save dict_store_save
               (<[CONFIG_ADDRESS := CfgStr "http://hub.local/"]> kitchen_config)
               (mkSettings (fun _ => CfgNone) (fun _ => CfgNone))
               hub_down init_state in
  config (snd (snd out)) !! CONFIG_ADDRESS = Some (CfgStr "http://hub.local").
Proof.
  apply (saved_address_is_normalised dict_store_save
           (<[CONFIG_ADDRESS := CfgStr "http://hub.local/"]> kitchen_config)
           (mkSettings (fun _ => CfgNone) (fun _ => CfgNone))
           hub_down hub_down init_state "http://hub.local/").
  - intros d st k v Hk. unfold dict_store_save; simpl. by rewrite Hk.
  - vm_compute. reflexivity.
Defined.

(** ** More on the answers *)

(** X16: when the state query made its request, it returns [None] exactly
    when the request raised or the answer has no readable [state]; a state
    that was read always gives [True] or [False]. *)
Theorem query_unknown_iff_failed (hub : Hub) (w : State) (req : Request)
    (out : Outcome) :
  In (req, out) (http_log (events_of is_HA_state_on hub w)) ->
  (result_of is_HA_state_on hub w = Ok None <-> query_failed out) /\
  (forall status, out = NetResponse (Some (PyDict [("state", status)])) ->
     result_of is_HA_state_on hub w = Ok (Some (_parse_status status))).
Proof.
  intros Hin. rewrite (is_HA_state_on_answer _ _ _ _ Hin).
  unfold query_result, query_failed. split.
  - destruct out as [e|body]; [done|].
    destruct (queried_status body); [|done]. by split.
  - by intros status ->.
Qed.

Lemma query_unknown_iff_failed_witness :
  result_of is_HA_state_on hub_down (mkState kitchen_config (Some true) [])
    = Ok None.
Proof.
  apply (proj1 (query_unknown_iff_failed hub_down
                  (mkState kitchen_config (Some true) [])
                  (states_request (CfgStr "http://hub.local")
                     (CfgStr "light.kitchen") (CfgStr "secret")
                     (CfgBool false))
                  (NetRaise ConnectionError)
                  ltac:(vm_compute; by left))).
  exact I.
Defined.

(** X17: [is_config_completed] is true exactly when the dict holds a truthy
    address, entity id and API key; a missing key makes it false, not an
    exception, and no other key of the dict (the certificate flag
    included) has a say. *)
Theorem config_completeness (cfg : gmap string CfgVal) :
  (is_config_completed cfg = true <->
   exists a e k,
     cfg !! CONFIG_ADDRESS = Some a /\ truthy a = true /\
     cfg !! CONFIG_ENTITY_ID = Some e /\ truthy e = true /\
     cfg !! CONFIG_API_KEY = Some k /\ truthy k = true) /\
  (forall key v,
     key <> CONFIG_ADDRESS -> key <> CONFIG_ENTITY_ID ->
     key <> CONFIG_API_KEY ->
     is_config_completed (<[key := v]> cfg) = is_config_completed cfg /\
     is_config_completed (delete key cfg) = is_config_completed cfg).
Proof.
  split; [apply is_config_completed_true|].
  intros key v H1 H2 H3. unfold is_config_completed, cfg_getitem.
  by rewrite !lookup_insert_ne, !lookup_delete_ne.
Qed.

Lemma config_completeness_witness :
  is_config_completed (delete CONFIG_VERIFY_CERTIFICATE kitchen_config)
    = is_config_completed kitchen_config.
Proof.
  apply (proj2 (config_completeness kitchen_config)
           CONFIG_VERIFY_CERTIFICATE CfgNone);
    discriminate.
Defined.

(** ** The unknown state *)

Lemma head_http_log_logs (logs tr : list Event) :
  effects logs = [] -> head (http_log (logs ++ tr)) = head (http_log tr).
Proof. intros Hl. by rewrite http_log_app, (effects_nil_http _ Hl). Qed.

Lemma head_app_some {A} (l1 l2 : list A) (x : A) :
  head l1 = Some x -> head (l1 ++ l2) = Some x.
Proof. by destruct l1. Qed.

(** A trace with the call profile whose first call is a POST. *)
Lemma call_profile_post (evs : list Event) (req : Request) (out : Outcome) :
  call_profile evs -> head (http_log evs) = Some (req, out) ->
  method req = POST ->
  net_steps evs = [Call POST] \/ net_steps evs = [Call POST; Pause 1; Call GET].
Proof.
  intros Hp Hhd Hm.
  assert (Hh : head (methods_of evs) = Some POST).
  { unfold methods_of. destruct (http_log evs) as [|c l]; [done|].
    simpl in *. injection Hhd as ->. simpl. by rewrite Hm. }
  rewrite (proj1 (net_steps_calls evs)) in Hh.
  destruct Hp as [Hp|[Hp|[Hp|Hp]]]; rewrite Hp in Hh; try done; auto.
Qed.

(** C10: with the cached state unknown ([None], which is falsy), [turnOn]
    runs [toggle_light]: after its two debug lines it runs
    [toggle_HA_state], caches the result, pushes it to the clients and
    answers with it; with a complete configuration its first network call
    is the POST to the toggle service, followed by nothing or by the sleep
    and the GET of the retry; what it does is what the [toggle] action
    does.  [turnOff] only writes its two debug lines: it makes no call, has
    no effect and leaves the state unknown. *)
Theorem unknown_state_counts_as_off (hub : Hub) (w : State) :
  isLightOn w = None ->
  let turnOn := on_api_get [("action", "turnOn")] in
  let turnOff := on_api_get [("action", "turnOff")] in
  let pre action :=
    [EvLog DEBUG "API REQUEST isLightOn: {self.isLightOn}"
       [AVal (state_to_py None)];
     EvLog DEBUG "running API action {action}" [AVal (PyStr action)]] in
  let w0 := emit (pre "turnOn") w in
  (exists r evs,
     toggle_HA_state hub w0 = (r, emit evs w0) /\
     turnOn hub w =
       match r with
       | Ok st =>
           (Ok (jsonify_state st),
            mkState (config w) st
              (trace w ++ pre "turnOn" ++ evs
                 ++ EvPluginMessage (plugin_message st)
                 :: changed_log None st "TURNON: light state changed."))
       | Raise e => (Raise e, emit evs w0)
       end) /\
  (forall a s k v,
     is_config_completed (config w) = true ->
     config w !! CONFIG_ADDRESS = Some a ->
     config w !! CONFIG_ENTITY_ID = Some (CfgStr s) ->
     config w !! CONFIG_API_KEY = Some k ->
     config w !! CONFIG_VERIFY_CERTIFICATE = Some v ->
     let req := toggle_request a s (before_first "." s) k v in
     method req = POST /\
     head (http_log (events_of turnOn hub w))
       = Some (req, hub (effects (trace w)) req) /\
     (net_steps (events_of turnOn hub w) = [Call POST] \/
      net_steps (events_of turnOn hub w) = [Call POST; Pause 1; Call GET])) /\
  observe turnOn hub w = observe toggle_action hub w /\
  turnOff hub w = (Ok (jsonify_state None), emit (pre "turnOff") w) /\
  observe turnOff hub w = (Ok (jsonify_state None), None, config w, []) /\
  http_log (events_of turnOff hub w) = [].
Proof.
  intros Hl turnOn turnOff pre w0.
  pose proof (on_api_get_turnOn hub w) as Hon.
  pose proof (on_api_get_turnOff hub w) as Hoff.
  pose proof (observe_turnOn hub w) as Oon.
  pose proof (observe_turnOff hub w) as Ooff.
  rewrite Hl in Hon, Hoff, Oon, Ooff. simpl in Hon, Hoff, Oon, Ooff.
  fold w0 in Hon.
  destruct (toggle_HA_state_profile hub w0) as (r & evs & Hrun & Hp).
  assert (Hall : turnOn hub w =
            match r with
            | Ok st =>
                (Ok (jsonify_state st),
                 mkState (config w) st
                   (trace w ++ pre "turnOn" ++ evs
                      ++ EvPluginMessage (plugin_message st)
                      :: changed_log None st "TURNON: light state changed."))
            | Raise e => (Raise e, emit evs w0)
            end).
  { unfold turnOn. rewrite Hon. unfold toggle_tail, toggle_light.
    rewrite (adopt_tail_run toggle_HA_state hub w0 r evs None _ Hrun).
    destruct r as [st|e]; [|done]. unfold w0, emit; simpl.
    by rewrite <- !app_assoc. }
  split; [by exists r, evs|]. split; cycle 1.
  { repeat split; try done.
    rewrite <- http_log_effects.
    change (http_log (snd (observe turnOff hub w)) = []).
    unfold turnOff. by rewrite Ooff. }
  intros a s k v Hc Ha He Hk Hv req. split; [done|].
  pose proof (toggle_HA_state_first_call hub w0 a k v s Hc Ha He Hk Hv) as Hhd.
  cbv zeta in Hhd. rewrite (events_of_emit _ _ _ _ _ Hrun) in Hhd.
  assert (Hview : effects (trace w0) = effects (trace w)).
  { unfold w0; simpl. by rewrite effects_app, app_nil_r. }
  rewrite Hview in Hhd. fold req in Hhd.
  assert (Hevs : exists tail,
             http_log tail = [] /\ net_steps tail = [] /\
             events_of turnOn hub w = pre "turnOn" ++ evs ++ tail).
  { destruct r as [st|e].
    - exists (EvPluginMessage (plugin_message st)
              :: changed_log None st "TURNON: light state changed.").
      pose proof (changed_log_is_log None st "TURNON: light state changed.")
        as Hcl.
      split; [simpl; by apply effects_nil_http|].
      split; [simpl; by apply effects_nil_net_steps|].
      by apply (events_of_run _ _ _ (Ok (jsonify_state st)) st).
    - exists []. split; [done|]. split; [done|]. rewrite app_nil_r.
      apply (events_of_emit _ _ _ (Raise e)). rewrite Hall.
      unfold w0. by rewrite emit_emit. }
  destruct Hevs as (tail & Hth & Htn & Hevs). rewrite Hevs.
  assert (Hhead : head (http_log (pre "turnOn" ++ evs ++ tail))
                  = Some (req, hub (effects (trace w)) req)).
  { rewrite head_http_log_logs; [|done]. rewrite http_log_app.
    by apply head_app_some. }
  split; [exact Hhead|].
  eapply call_profile_post; [|exact Hhead|done].
  apply call_profile_logs; [done|].
  unfold call_profile in *.
  by rewrite net_steps_app, Htn, app_nil_r.
Qed.

Lemma unknown_state_counts_as_off_witness :
  let w := mkState kitchen_config None [] in
  let hub := hub_prompt "on" in
  head (http_log (events_of (on_api_get [("action", "turnOn")]) hub w))
    = Some (toggle_request (CfgStr "http://hub.local") "light.kitchen" "light"
              (CfgStr "secret") (CfgBool false),
            NetResponse (Some (PyList [PyDict [("state", PyStr "on")]]))) /\
  observe (on_api_get [("action", "turnOn")]) hub w
    = observe toggle_action hub w /\
  observe (on_api_get [("action", "turnOff")]) hub w
    = (Ok (jsonify_state None), None, config w, []) /\
  http_log (events_of (on_api_get [("action", "turnOff")]) hub w) = [].
Proof.
  destruct (unknown_state_counts_as_off (hub_prompt "on")
              (mkState kitchen_config None []))
    as (_ & Hpost & Hon & _ & Hoff & Hh).
  - reflexivity.
  - destruct (Hpost (CfgStr "http://hub.local") "light.kitchen"
                (CfgStr "secret") (CfgBool false))
      as (_ & Hhd & _).
    + vm_compute. reflexivity.
    + vm_compute. reflexivity.
    + vm_compute. reflexivity.
    + vm_compute. reflexivity.
    + vm_compute. reflexivity.
    + split; [exact Hhd|]. split; [exact Hon|]. split; [exact Hoff|exact Hh].
Defined.

(** ** Saved addresses *)

Lemma ends_with_tail (c a : ascii) (r : string) :
  ends_with c (String a r) = false -> ends_with c r = false.
Proof. by destruct r. Qed.

Lemma sub_trailing_slashes_dollar (n : nat) (t : string) :
  at_dollar t = true -> sub_trailing_slashes (slashes n +:+ t) = t.
Proof.
  intros Ht. destruct n as [|n].
  - destruct (at_dollar_cases t Ht) as [->| ->]; reflexivity.
  - simpl slashes. rewrite append_cons. simpl.
    by rewrite (skip_slashes_run n t Ht), Ht.
Qed.

(** After something that does not end with a slash, [$] does not match
    where the slashes before it stop. *)
Lemma skip_slashes_inner (p : string) (n : nat) (t : string) :
  p <> EmptyString -> ends_with slash p = false ->
  (t = EmptyString -> ends_with newline (p +:+ slashes n) = false) ->
  at_dollar (skip_slashes (p +:+ slashes n +:+ t)) = false.
Proof.
  induction p as [|a q IH]; [done|]. intros _ Hend Hnl.
  rewrite append_cons. simpl.
  destruct (Ascii.eqb_spec a slash) as [->|Hne].
  - destruct q as [|b q]; [done|]. apply IH; [done|done|].
    intros Ht. specialize (Hnl Ht). by rewrite append_cons in Hnl.
  - destruct (q +:+ slashes n +:+ t) as [|b r] eqn:Hq; [|done].
    destruct q as [|b q]; [|done]. destruct n as [|n]; [|done].
    change (t = EmptyString) in Hq. specialize (Hnl Hq).
    exact Hnl.
Qed.

(** What [re.sub(r'/*$', '', s)] gives on every string: [s] is [p], then
    slashes, then [t], where [p] does not end with a slash and [t] is the
    final newline of [s], or nothing when [s] has none. *)
Lemma sub_trailing_slashes_run (p : string) (n : nat) (t : string) :
  ends_with slash p = false -> at_dollar t = true ->
  (t = EmptyString -> ends_with newline (p +:+ slashes n) = false) ->
  sub_trailing_slashes (p +:+ slashes n +:+ t) = p +:+ t.
Proof.
  intros Hend Ht. induction p as [|a q IH]; intros Hnl.
  { by apply sub_trailing_slashes_dollar. }
  rewrite !append_cons. simpl.
  assert (Hq : ends_with slash q = false) by by apply (ends_with_tail _ a).
  assert (Hnq : t = EmptyString -> ends_with newline (q +:+ slashes n) = false).
  { intros Hte. specialize (Hnl Hte). rewrite append_cons in Hnl.
    by apply (ends_with_tail _ a). }
  destruct (Ascii.eqb_spec a slash) as [->|Hne]; simpl.
  - destruct q as [|b q]; [done|].
    rewrite skip_slashes_inner; [|done|done|done]. by rewrite IH.
  - by rewrite IH.
Qed.

Lemma saved_address_sub
    (framework_save : gmap string CfgVal -> Settings -> Settings)
    (data : gmap string CfgVal) (store : Settings) (hub : Hub) (w : State)
    (s : string) :
  saved_address framework_save data store hub w s
  = Some (CfgStr (sub_trailing_slashes s)).
Proof.
  unfold saved_address, on_settings_save. rewrite lookup_insert_eq.
  unfold re_sub_trailing_slashes, res_bind.
  destruct (reload_settings_run
              (framework_save
                 (<[CONFIG_ADDRESS := CfgStr (sub_trailing_slashes s)]>
                    (<[CONFIG_ADDRESS := CfgStr s]> data))
                 store) hub w) as (logs & _ & Hrun).
  rewrite Hrun; simpl. by rewrite lookup_insert_eq.
Qed.

(** X12: what [on_settings_save] makes of the address, for every string.
    Let [p] not end with a slash.  The address [p], [n] slashes and a final
    newline is saved as [p] and the newline: the run of slashes before the
    final newline is deleted.  The address [p] and [n] slashes, when it does
    not end with a newline, is saved as [p]: the run of slashes at the end
    is deleted.  Nothing else is changed (slashes inside [p] stay). *)
Theorem saved_address_slashes
    (framework_save : gmap string CfgVal -> Settings -> Settings)
    (data : gmap string CfgVal) (store : Settings) (hub : Hub) (w : State)
    (p : string) (n : nat) :
  ends_with slash p = false ->
  let saved := saved_address framework_save data store hub w in
  saved (p +:+ slashes n +:+ String newline EmptyString)
    = Some (CfgStr (p +:+ String newline EmptyString)) /\
  (ends_with newline (p +:+ slashes n) = false ->
   saved (p +:+ slashes n) = Some (CfgStr p)).
Proof.
  intros Hend saved. unfold saved. rewrite !saved_address_sub. split.
  - by rewrite sub_trailing_slashes_run.
  - intros Hnl. rewrite <- (append_empty (slashes n)).
    rewrite sub_trailing_slashes_run; [by rewrite append_empty|done|done|done].
Qed.

Lemma saved_address_slashes_witness :
  saved_address dict_store_save kitchen_config
    (mkSettings (fun _ => CfgNone) (fun _ => CfgNone)) hub_down init_state
    ("http://hub.local/api" +:+ slashes 2 +:+ String newline EmptyString)
  = Some (CfgStr ("http://hub.local/api" +:+ String newline EmptyString)) /\
  saved_address dict_store_save kitchen_config
    (mkSettings (fun _ => CfgNone) (fun _ => CfgNone)) hub_down init_state
    ("http://hub.local/api" +:+ slashes 2)
  = Some (CfgStr "http://hub.local/api").
Proof.
  destruct (saved_address_slashes dict_store_save kitchen_config
              (mkSettings (fun _ => CfgNone) (fun _ => CfgNone))
              hub_down init_state "http://hub.local/api" 2)
    as [H1 H2].
  - reflexivity.
  - split; [exact H1|]. apply H2. reflexivity.
Defined.

(** On a string without a newline the trailing slashes are what is deleted,
    and deleting twice is deleting once. *)
Lemma sub_trailing_slashes_no_newline (s : string) :
  ~ In newline (list_ascii_of_string s) ->
  (exists n, s = sub_trailing_slashes s +:+ slashes n) /\
  (ends_with slash s = false -> sub_trailing_slashes s = s) /\
  sub_trailing_slashes (sub_trailing_slashes s) = sub_trailing_slashes s.
Proof.
  intros Hnl.
  destruct (sub_trailing_slashes_split s) as (p & n & t & Ht & Hs & Hsub & Hp).
  destruct (at_dollar_cases t Ht) as [->| ->]; cycle 1.
  { destruct Hnl. rewrite Hs.
    replace (p +:+ slashes n +:+ String newline EmptyString)
      with ((p +:+ slashes n) +:+ String newline EmptyString).
    - apply in_append_newline.
    - clear. induction p as [|a p IH]; [done|].
      by rewrite !append_cons, IH. }
  rewrite !append_empty in *. rewrite Hsub.
  assert (Hpnl : ~ In newline (list_ascii_of_string p)).
  { intros Hin. apply Hnl. rewrite Hs. clear -Hin.
    induction p as [|a p IH]; [done|]. rewrite append_cons.
    destruct Hin as [->|Hin]; [by left|right; by apply IH]. }
  split; [by exists n|]. split.
  - intros Hend. destruct n as [|n]; [by rewrite Hs, append_empty|].
    by rewrite Hs, ends_with_append_slashes in Hend.
  - by apply sub_trailing_slashes_fixed.
Qed.

(** X13: on an address without a newline, [on_settings_save] removes
    exactly the trailing slashes: the address is what is saved followed by
    slashes only, and what is saved does not end with a slash.  So an
    address without a trailing slash is saved as it is, and saving what was
    saved changes nothing. *)
Theorem saved_address_plain
    (framework_save : gmap string CfgVal -> Settings -> Settings)
    (data : gmap string CfgVal) (store : Settings) (hub : Hub) (w : State)
    (s : string) :
  ~ In newline (list_ascii_of_string s) ->
  let saved := saved_address framework_save data store hub w in
  exists r,
    saved s = Some (CfgStr r) /\
    (exists n, s = r +:+ slashes n) /\
    ends_with slash r = false /\
    (ends_with slash s = false -> r = s) /\
    saved r = Some (CfgStr r).
Proof.
  intros Hnl saved. unfold saved.
  destruct (sub_trailing_slashes_no_newline s Hnl) as (Hrun & Hkeep & Hidem).
  exists (sub_trailing_slashes s). rewrite !saved_address_sub.
  split; [done|]. split; [done|].
  split; [apply sub_trailing_slashes_end|]. split; [done|]. by rewrite Hidem.
Qed.

Lemma saved_address_plain_witness :
  exists r,
    saved_address dict_store_save kitchen_config
      (mkSettings (fun _ => CfgNone) (fun _ => CfgNone)) hub_down init_state
      "http://hub.local//"
    = Some (CfgStr r) /\
    (exists n, "http://hub.local//" = r +:+ slashes n) /\
    ends_with slash r = false.
Proof.
  destruct (saved_address_plain dict_store_save kitchen_config
              (mkSettings (fun _ => CfgNone) (fun _ => CfgNone))
              hub_down init_state "http://hub.local//")
    as (r & Hsaved & Hrun & Hend & _).
  - vm_compute. intuition discriminate.
  - by exists r.
Defined.

(** ** The answers that are retried *)

Lemma state_not_reported_shapes (j : PyVal) :
  state_not_reported (NetResponse (Some j)) = true <-> lacks_state j.
Proof.
  unfold lacks_state, state_not_reported, toggled_status; simpl. split.
  - destruct j as [| | | |s|l|d]; simpl; try done.
    + destruct s as [|c s]; [by right; right; left|done].
    + destruct l as [|x l]; [by left|].
      unfold seq_index; simpl.
      destruct x as [| | | |s|l'|d]; simpl; try done.
      destruct (dict_get d "state") eqn:Hd; [done|].
      intros _. right; left. by exists d, l.
    + intros _. right; right; right. by exists d.
  - intros [->|[(d & rest & -> & Hd)|[->|(d & ->)]]]; try done.
    unfold seq_index; simpl. by rewrite Hd.
Qed.

(** X18: which decoded answers to the toggle POST make [toggle_HA_state]
    sleep and query.  When the answer is the empty array, an array whose
    first entry is an object without [state], the empty string or a JSON
    object, the run is the POST, then a sleep of 1 second, then the GET of
    [is_HA_state_on], whose result is returned.  For every other decoded
    answer the run is the POST alone: no sleep and no query. *)
Theorem toggle_retry_by_answer (hub : Hub) (w : State) (req : Request)
    (j : PyVal) :
  head (http_log (events_of toggle_HA_state hub w))
    = Some (req, NetResponse (Some j)) ->
  let evs := events_of toggle_HA_state hub w in
  (lacks_state j ->
   net_steps evs = [Call POST; Pause 1; Call GET] /\
   sleeps evs = [1] /\
   exists req2 out2,
     http_log evs = [(req, NetResponse (Some j)); (req2, out2)] /\
     method req2 = GET /\
     result_of toggle_HA_state hub w = Ok (query_result out2)) /\
  (~ lacks_state j ->
   net_steps evs = [Call POST] /\
   sleeps evs = [] /\
   http_log evs = [(req, NetResponse (Some j))]).
Proof.
  intros Hhd evs. subst evs.
  destruct (toggle_HA_state_cases hub w)
    as [(r & logs & Hl & Hrun)|(a & s & k & v & Hc & Ha & He & Hk & Hv)].
  { rewrite (events_of_emit _ _ _ _ _ Hrun), (effects_nil_http _ Hl) in Hhd.
    discriminate. }
  rewrite (toggle_HA_state_first_call hub w a k v s Hc Ha He Hk Hv) in Hhd.
  injection Hhd as Hreq Hout.
  pose proof (state_not_reported_shapes j) as Hshape. rewrite <- Hout in Hshape.
  split; intros Hj.
  - apply Hshape in Hj.
    destruct (toggle_HA_state_retry hub w a k v s Hc Ha He Hk Hv Hj)
      as (logs & Hl & _ & Hrun).
    rewrite emit_emit in Hrun. rewrite Hout, Hreq in Hrun.
    rewrite (events_of_emit _ _ _ _ _ Hrun), (result_of_eq _ _ _ _ _ Hrun).
    pose proof (toggle_verdict_is_log
                  (query_result
                     (hub (effects (trace w)
                             ++ [EvHttp req (NetResponse (Some j)); EvSleep 1])
                          (states_request a (CfgStr s) k v)))
                  (isLightOn w)) as Hv1.
    simpl. rewrite net_steps_app, sleeps_app, http_log_app.
    rewrite (effects_nil_net_steps _ Hl), (effects_nil_sleeps _ Hl),
      (effects_nil_http _ Hl).
    rewrite (effects_nil_net_steps _ Hv1), (effects_nil_sleeps _ Hv1),
      (effects_nil_http _ Hv1).
    rewrite <- Hreq. split; [done|]. split; [done|].
    by eexists _, _.
  - destruct (state_not_reported
                (hub (effects (trace w))
                     (toggle_request a s (before_first "." s) k v))) eqn:Hn.
    { destruct Hj. by apply Hshape. }
    destruct (toggle_HA_state_direct hub w a k v s Hc Ha He Hk Hv Hn)
      as (logs & Hl & Hrun).
    rewrite Hout, Hreq in Hrun. rewrite (events_of_emit _ _ _ _ _ Hrun).
    simpl. rewrite (effects_nil_net_steps _ Hl), (effects_nil_sleeps _ Hl),
      (effects_nil_http _ Hl).
    by rewrite <- Hreq.
Qed.

Lemma toggle_retry_by_answer_witness :
  let w := mkState kitchen_config (Some false) [] in
  net_steps (events_of toggle_HA_state (hub_slow "on") w)
    = [Call POST; Pause 1; Call GET] /\
  net_steps (events_of toggle_HA_state (hub_prompt "on") w) = [Call POST].
Proof.
  split.
  - apply (toggle_retry_by_answer (hub_slow "on")
             (mkState kitchen_config (Some false) [])
             (toggle_request (CfgStr "http://hub.local") "light.kitchen"
                "light" (CfgStr "secret") (CfgBool false))
             (PyList [])).
    + reflexivity.
    + by left.
  - apply (toggle_retry_by_answer (hub_prompt "on")
             (mkState kitchen_config (Some false) [])
             (toggle_request (CfgStr "http://hub.local") "light.kitchen"
                "light" (CfgStr "secret") (CfgBool false))
             (PyList [PyDict [("state", PyStr "on")]])).
    + reflexivity.
    + intros [H|[(d & rest & H & Hd)|[H|(d & H)]]]; try discriminate.
      injection H as <- _. discriminate.
Defined.
